(** * The MOSTLY AI tutorial notebooks, as monadic programs

    The repository holds two Jupyter notebooks: the getting-started tutorial
    and the conditional-generation tutorial.  Both are straight-line Python:
    they download a CSV file, call the hosted SDK ([train], [probe],
    [generate]) and display or plot what comes back; the second one also
    pre-processes a dataframe in place.

    The notebooks are embedded as programs of a state-and-exception monad
    over a kernel state that holds
    - the heap of dataframe objects (dataframes are mutable and shared by
      reference, as in pandas),
    - the state of numpy's global random generator,
    - the log of everything the notebook did that is visible from outside:
      downloads, SDK calls with their arguments and answers, displays,
      prints and plots.
    The SDK, the downloaded files and the library functions whose code is
    not in the repository are parameters of the run. *)

From Stdlib Require Import String Ascii ZArith Lia Bool Arith PeanoNat List.
From Stdlib Require Import DecimalString SpecFloat.
Import ListNotations.
Open Scope string_scope.

(** ** Python values *)

Inductive exn :=
| KeyError (keys : list string)
| AttributeError (name : string)
| ValueError (msg : string)
| TypeError (msg : string)
| RemoteError (msg : string).

Inductive result (A : Type) :=
| Ok (a : A)
| Raise (e : exn).

Arguments Ok {A} a.
Arguments Raise {A} e.

(** A cell of a dataframe. Floats are IEEE values; their printing is a
    library function (see [Python] below). *)
Inductive value :=
| VInt (z : Z)
| VFloat (f : spec_float)
| VStr (s : string)
| VBool (b : bool).

Definition Series := list value.

(** A dataframe: an index of [nrows] rows and named columns, in order.
    Column names are unique in every frame pandas builds, and every column
    has [nrows] entries. *)
Record DataFrame := mkFrame {
  nrows : nat;
  columns : list (string * Series)
}.

Definition column_names (df : DataFrame) : list string :=
  map fst (columns df).

Fixpoint lookup {A : Type} (k : string) (l : list (string * A)) : option A :=
  match l with
  | [] => None
  | (k', a) :: rest => if String.eqb k k' then Some a else lookup k rest
  end.

Definition has_column (df : DataFrame) (k : string) : bool :=
  existsb (String.eqb k) (column_names df).

(** Probabilities handed to [np.random.choice]. They are binary64 numbers
    in the notebook; the model keeps the expression that produced them and
    leaves the rounding to the library function that consumes them. *)
Inductive prob :=
| Half
| Mean (hits total : nat)
| OneMinus (p : prob).

(** The state of numpy's global Mersenne Twister, read as a number. *)
Definition rng_state := N.

(** Library functions the notebooks call and whose code is not in the
    repository. All are functions: Python and numpy are deterministic once
    the generator state is given. The last three are the computations
    behind the figures; each raises when it cannot work on what it is
    given (scipy's density estimate of fewer than two different values,
    the logarithm of prices that are not numbers, matplotlib's scatter
    plot of colours that are not as many as the points):
    - [np_log_clip s] is [np.log(s.clip(lower=50, upper=2_000))],
    - [plot_kde s] is [s.plot.kde(bw_method=0.2)],
    - [plot_scatter x y c] is [plot.scatter] of the points [x], [y] with
      the colour values [c]. *)
Record Python := mkPython {
  float_str : spec_float -> string;
  np_random_seed : Z -> rng_state;
  np_random_choice :
    rng_state -> list string -> nat -> list prob ->
    result (list string) * rng_state;
  sample_indices : rng_state -> nat -> nat -> list nat * rng_state;
  np_log_clip : Series -> result Series;
  plot_kde : Series -> result unit;
  plot_scatter : Series -> Series -> Series -> result unit
}.

(** A missing value: pandas holds it as the float NaN. *)
Definition nan : value := VFloat S754_nan.

(** [pd.isna(v)] *)
Definition isna (v : value) : bool :=
  match v with
  | VFloat S754_nan => true
  | _ => false
  end.

(** ** pandas operations used by the notebooks *)

Section Pandas.

Variable py : Python.

(** [str(v)] *)
Definition py_str (v : value) : string :=
  match v with
  | VInt z => NilZero.string_of_int (Z.to_int z)
  | VFloat f => float_str py f
  | VStr s => s
  | VBool true => "True"
  | VBool false => "False"
  end.

(** [s.astype(str)]: a series of the string dtype. Every value is
    replaced by its string form, except a missing one, which stays missing
    (pandas 3, which an up-to-date install brings; older versions made it
    the string "nan"). *)
Definition astype_str (s : Series) : Series :=
  map (fun v => if isna v then nan else VStr (py_str v)) s.

(** [x + y] for two entries of string series: the concatenation, and
    missing when either entry is. *)
Definition add_str (x y : value) : value :=
  match x, y with
  | VStr a, VStr b => VStr (a ++ b)
  | _, _ => nan
  end.

(** [s + sep] on a series of strings *)
Definition str_add_scalar (s : Series) (sep : string) : Series :=
  map (fun x => add_str x (VStr sep)) s.

(** [s + t] on two series of strings over the same index *)
Fixpoint str_add (s t : Series) : Series :=
  match s, t with
  | x :: s', y :: t' => add_str x y :: str_add s' t'
  | _, _ => []
  end.

(** A column made of an array of strings. *)
Definition of_strings (s : list string) : Series :=
  map VStr s.

(** [df[k]] *)
Definition getitem (df : DataFrame) (k : string) : result Series :=
  match lookup k (columns df) with
  | Some s => Ok s
  | None => Raise (KeyError [k])
  end.

(** [df.k] *)
Definition getattr (df : DataFrame) (k : string) : result Series :=
  match lookup k (columns df) with
  | Some s => Ok s
  | None => Raise (AttributeError k)
  end.

(** [df[k] = s]: replaces the column in place when there is one, and
    appends it as the last column otherwise. *)
Fixpoint set_column (k : string) (s : Series) (cols : list (string * Series))
  : list (string * Series) :=
  match cols with
  | [] => [(k, s)]
  | (k', s') :: rest =>
      if String.eqb k k' then (k, s) :: rest
      else (k', s') :: set_column k s rest
  end.

Definition setitem (df : DataFrame) (k : string) (s : Series) : DataFrame :=
  mkFrame (nrows df) (set_column k s (columns df)).

Definition mem (k : string) (ks : list string) : bool :=
  existsb (String.eqb k) ks.

Definition missing (df : DataFrame) (ks : list string) : list string :=
  filter (fun k => negb (has_column df k)) ks.

(** [df.drop(columns=ks)] *)
Definition drop (df : DataFrame) (ks : list string) : result DataFrame :=
  match missing df ks with
  | [] => Ok (mkFrame (nrows df)
                (filter (fun c => negb (mem (fst c) ks)) (columns df)))
  | m => Raise (KeyError m)
  end.

Fixpoint pick (cols : list (string * Series)) (ks : list string)
  : list (string * Series) :=
  match ks with
  | [] => []
  | k :: ks' =>
      match lookup k cols with
      | Some s => (k, s) :: pick cols ks'
      | None => pick cols ks'
      end
  end.

(** [df[ks]] with a list of labels *)
Definition select (df : DataFrame) (ks : list string) : result DataFrame :=
  match missing df ks with
  | [] => Ok (mkFrame (nrows df) (pick (columns df) ks))
  | m => Raise (KeyError m)
  end.

(** [df.head()] *)
Definition head (df : DataFrame) : DataFrame :=
  mkFrame (Nat.min 5 (nrows df))
    (map (fun c => (fst c, firstn 5 (snd c))) (columns df)).

(** [df.shape] *)
Definition shape (df : DataFrame) : nat * nat :=
  (nrows df, length (columns df)).

(** [pd.DataFrame(d)] from a dict of equally long arrays *)
Definition frame_of_dict (d : list (string * Series)) : result DataFrame :=
  match d with
  | [] => Ok (mkFrame 0 [])
  | (_, s) :: _ =>
      if forallb (fun c => Nat.eqb (length (snd c)) (length s)) d
      then Ok (mkFrame (length s) d)
      else Raise (ValueError "All arrays must be of the same length")
  end.

(** [s == x] for a string [x] *)
Definition eq_str (s : Series) (x : string) : list bool :=
  map (fun v => match v with VStr y => String.eqb y x | _ => false end) s.

(** [mask.mean()] *)
Definition mean (mask : list bool) : prob :=
  Mean (count_occ bool_dec mask true) (length mask).

Fixpoint keep {A : Type} (mask : list bool) (l : list A) : list A :=
  match mask, l with
  | true :: m, x :: l' => x :: keep m l'
  | false :: m, _ :: l' => keep m l'
  | _, _ => []
  end.

(** [df[mask]] with a boolean series over the same index *)
Definition where_ (df : DataFrame) (mask : list bool) : DataFrame :=
  mkFrame (count_occ bool_dec (firstn (nrows df) mask) true)
    (map (fun c => (fst c, keep mask (snd c))) (columns df)).

(** rows of [df] at the given positions, in that order *)
Definition take (df : DataFrame) (idx : list nat) : DataFrame :=
  mkFrame (length idx)
    (map (fun c => (fst c, map (fun i => nth i (snd c) (VStr "")) idx))
       (columns df)).

(** [f"{n:,}"]: decimal digits, a comma before every group of three *)
Fixpoint group3 (ds : list ascii) : list ascii :=
  match ds with
  | [] => []
  | d :: rest =>
      d :: (if negb (Nat.eqb (length rest) 0) && Nat.eqb (length rest mod 3) 0
            then ","%char :: group3 rest
            else group3 rest)
  end.

Definition format_thousands (n : nat) : string :=
  string_of_list_ascii
    (group3 (list_ascii_of_string (NilZero.string_of_uint (Nat.to_uint n)))).

End Pandas.

(** ** What a notebook does that is visible from outside *)

Definition handle := nat.

(** Python values passed to the SDK. A dataframe inside a configuration is
    passed by value: the call carries its contents at the time of the call. *)
Inductive pyval :=
| PNone
| PBool (b : bool)
| PInt (z : Z)
| PStr (s : string)
| PList (l : list pyval)
| PDict (kv : list (string * pyval))
| PFrame (d : DataFrame)
| PGenerator (g : handle)
| PSynthetic (s : handle).

(** The object a method is called on: the SDK client ([mostly]), a
    generator ([g]) or a synthetic dataset ([sd]). *)
Inductive receiver :=
| RClient (c : handle)
| RGenerator (g : handle)
| RSynthetic (s : handle).

(** A method call as written at the call site: positional arguments and
    keyword arguments, the omitted ones absent. *)
Record call := mkCall {
  recv : receiver;
  meth : string;
  args : list pyval;
  kwargs : list (string * pyval)
}.

Inductive plot :=
| Kde (title xlabel : string) (curves : list (string * Series))
| Scatter (title : string) (x y colour : Series).

Inductive event :=
| EInstall (pkg : string)
| EReadCsv (url : string)
| ENew (cls : string) (c : handle)
| ECall (c : call) (answer : result pyval)
| EDisplay (d : DataFrame)
| EPrint (s : string)
| EPlot (p : plot).

(** The SDK is a third-party package; the repository only calls it, so
    the service is a parameter of the run. Its methods are typed as the
    notebooks use their answers: [train] answers with a generator, [probe]
    with tabular data, [generate] with a synthetic dataset whose [data()]
    is tabular data. Every answer may depend on all that happened before
    (the service is stateful and not deterministic), and every call may
    raise. *)
Record Service := mkService {
  sdk_connect : list event -> result unit;
  sdk_train : list event -> call -> result handle;
  sdk_probe : list event -> call -> result DataFrame;
  sdk_generate : list event -> call -> result handle;
  sdk_data : list event -> call -> result DataFrame;
  sdk_reports : list event -> call -> result unit
}.

(** Modelled from the spec: the declared defaults of [train]'s optional
    arguments, [start: bool = True, wait: bool = True]; the declaration is
    the SDK's. The comments of the getting-started notebook say the same
    ("default: True"). *)
Definition train_defaults : list (string * bool) :=
  [("start", true); ("wait", true)].

(** Modelled from the spec: the parameters of [train] in the order of its
    declared signature, [train(config, start, wait)]. *)
Definition train_parameters : list string :=
  ["config"; "start"; "wait"].

(** ** The kernel monad *)

Record kernel := mkKernel {
  heap : list DataFrame;
  rng : rng_state;
  log : list event
}.

Definition M (A : Type) := kernel -> result A * kernel.

Definition ret {A : Type} (a : A) : M A :=
  fun k => (Ok a, k).

Definition bind {A B : Type} (m : M A) (f : A -> M B) : M B :=
  fun k =>
    match m k with
    | (Ok a, k') => f a k'
    | (Raise e, k') => (Raise e, k')
    end.

Notation "x <- m ;; f" := (bind m (fun x => f))
  (at level 61, m at next level, right associativity).
Notation "m ;; f" := (bind m (fun _ => f))
  (at level 61, right associativity).

Definition lift {A : Type} (r : result A) : M A :=
  fun k => (r, k).

Definition emit (e : event) : M unit :=
  fun k => (Ok tt, mkKernel (heap k) (rng k) (log k ++ [e])).

Definition loc := nat.

Definition empty_frame : DataFrame := mkFrame 0 [].

(** A new dataframe object. *)
Definition alloc (d : DataFrame) : M loc :=
  fun k => (Ok (length (heap k)), mkKernel (heap k ++ [d]) (rng k) (log k)).

Definition load (l : loc) : M DataFrame :=
  fun k => (Ok (nth l (heap k) empty_frame), k).

Fixpoint update (l : loc) (d : DataFrame) (h : list DataFrame)
  : list DataFrame :=
  match h, l with
  | [], _ => []
  | _ :: h', O => d :: h'
  | x :: h', S l' => x :: update l' d h'
  end.

(** Mutation of the object at [l]: every variable bound to [l] sees it. *)
Definition store (l : loc) (d : DataFrame) : M unit :=
  fun k => (Ok tt, mkKernel (update l d (heap k)) (rng k) (log k)).

Definition answer_of {A : Type} (inj : A -> pyval) (r : result A)
  : result pyval :=
  match r with
  | Ok a => Ok (inj a)
  | Raise e => Raise e
  end.

(** A call to the service: asks it, and logs the call with its answer. *)
Definition invoke {A : Type} (ask : list event -> call -> result A)
  (inj : A -> pyval) (c : call) : M A :=
  fun k =>
    let r := ask (log k) c in
    (r, mkKernel (heap k) (rng k) (log k ++ [ECall c (answer_of inj r)])).

Definition count_new (l : list event) : nat :=
  length (filter (fun e => match e with ENew _ _ => true | _ => false end) l).

(** ** The notebooks *)

Section Notebooks.

(** The library functions, the files behind the URLs, and the service. *)
Variable py : Python.
Variable files : string -> result DataFrame.
Variable svc : Service.

(** *** Statements the notebooks are made of *)

(** [%pip install -U pkg] *)
Definition pip_install (pkg : string) : M unit :=
  emit (EInstall pkg).

(** [pd.read_csv(url)] *)
Definition read_csv (url : string) : M loc :=
  emit (EReadCsv url) ;;
  d <- lift (files url) ;;
  alloc d.

(** A cell that ends in an expression, or [display(df)]. *)
Definition display (df : loc) : M unit :=
  d <- load df ;;
  emit (EDisplay d).

Definition print (s : string) : M unit :=
  emit (EPrint s).

(** [MostlyAI()] *)
Definition MostlyAI : M receiver :=
  fun k =>
    let c := count_new (log k) in
    match sdk_connect svc (log k) with
    | Ok _ =>
        (Ok (RClient c),
         mkKernel (heap k) (rng k) (log k ++ [ENew "MostlyAI" c]))
    | Raise e => (Raise e, k)
    end.

(** [mostly.train(...)] *)
Definition train (mostly : receiver) (a : list pyval)
  (kw : list (string * pyval)) : M handle :=
  invoke (sdk_train svc) PGenerator (mkCall mostly "train" a kw).

(** [mostly.probe(...)]: the answer is a new dataframe object. *)
Definition probe (mostly : receiver) (a : list pyval)
  (kw : list (string * pyval)) : M loc :=
  d <- invoke (sdk_probe svc) PFrame (mkCall mostly "probe" a kw) ;;
  alloc d.

(** [mostly.generate(...)] *)
Definition generate (mostly : receiver) (a : list pyval)
  (kw : list (string * pyval)) : M handle :=
  invoke (sdk_generate svc) PSynthetic (mkCall mostly "generate" a kw).

(** [sd.data()] *)
Definition data (sd : handle) : M loc :=
  d <- invoke (sdk_data svc) PFrame (mkCall (RSynthetic sd) "data" [] []) ;;
  alloc d.

(** [g.reports(...)] *)
Definition reports (g : handle) (kw : list (string * pyval)) : M unit :=
  invoke (sdk_reports svc) (fun _ => PNone)
    (mkCall (RGenerator g) "reports" [] kw).

(** [df.copy()]: a new object with the same contents. *)
Definition df_copy (df : loc) : M loc :=
  d <- load df ;;
  alloc d.

Definition df_getitem (df : loc) (k : string) : M Series :=
  d <- load df ;;
  lift (getitem d k).

Definition df_getattr (df : loc) (k : string) : M Series :=
  d <- load df ;;
  lift (getattr d k).

(** [df[k] = s]: changes the object [df] points to. *)
Definition df_setitem (df : loc) (k : string) (s : Series) : M unit :=
  d <- load df ;;
  store df (setitem d k s).

Definition df_drop (df : loc) (ks : list string) : M loc :=
  d <- load df ;;
  d' <- lift (drop d ks) ;;
  alloc d'.

Definition df_select (df : loc) (ks : list string) : M loc :=
  d <- load df ;;
  d' <- lift (select d ks) ;;
  alloc d'.

Definition df_head (df : loc) : M loc :=
  d <- load df ;;
  alloc (head d).

Definition df_where (df : loc) (mask : list bool) : M loc :=
  d <- load df ;;
  alloc (where_ d mask).

Definition df_shape (df : loc) : M (nat * nat) :=
  d <- load df ;;
  ret (shape d).

Definition new_frame (d : list (string * Series)) : M loc :=
  f <- lift (frame_of_dict d) ;;
  alloc f.

(** [df.sample(n=n)]: draws from numpy's global generator, without
    replacement. *)
Definition df_sample (df : loc) (n : nat) : M loc :=
  d <- load df ;;
  fun k =>
    if Nat.ltb (nrows d) n then
      (Raise (ValueError
         "Cannot take a larger sample than population when 'replace=False'"),
       k)
    else
      let (idx, r) := sample_indices py (rng k) (nrows d) n in
      alloc (take d idx) (mkKernel (heap k) r (log k)).

(** [np.random.seed(s)] *)
Definition np_seed (s : Z) : M unit :=
  fun k => (Ok tt, mkKernel (heap k) (np_random_seed py s) (log k)).

(** [np.random.choice(options, n, p=p)] *)
Definition np_choice (options : list string) (n : nat) (p : list prob)
  : M (list string) :=
  fun k =>
    let (r, s) := np_random_choice py (rng k) options n p in
    (r, mkKernel (heap k) s (log k)).

(** *** docs/tutorials/getting-started/getting-started.ipynb *)

Definition getting_started : M unit :=
  pip_install "mostlyai" ;;
  (* load original data *)
  let repo_url :=
    "https://github.com/mostly-ai/public-demo-data/raw/refs/heads/dev" in
  df_original <- read_csv (repo_url ++ "/census/census.csv.gz") ;;
  display df_original ;;
  (* initialize SDK *)
  mostly <- MostlyAI ;;
  (* train a generator *)
  d <- load df_original ;;
  g <- train mostly []
         [("config",
           PDict
             [("name", PStr "US Census Income");
              ("tables",
               PList
                 [PDict
                    [("name", PStr "census");
                     ("data", PFrame d);
                     ("tabular_model_configuration",
                      PDict [("max_training_time", PInt 1)])]])]);
          ("start", PBool true);
          ("wait", PBool true)] ;;
  reports g [("display", PBool true)] ;;
  (* probe for 100 samples *)
  df_samples <- probe mostly [PGenerator g] [("size", PInt 100)] ;;
  display df_samples ;;
  (* generate a larger dataset *)
  sd <- generate mostly [PGenerator g] [("size", PInt 100000)] ;;
  df_synthetic <- data sd ;;
  display df_synthetic ;;
  (* conditionally generate 1000 records of 24y old Mexicans *)
  df_seed <- new_frame
               [("age", repeat (VInt 24) 1000);
                ("native_country", repeat (VStr "Mexico") 1000)] ;;
  s <- load df_seed ;;
  df_samples <- probe mostly [PGenerator g] [("seed", PFrame s)] ;;
  display df_samples.

(** *** The conditional-generation notebook, cell by cell *)

Definition census_url : string :=
  "https://github.com/mostly-ai/public-demo-data/raw/dev/census/census.csv.gz".

Definition airbnb_url : string :=
  "https://github.com/mostly-ai/public-demo-data/raw/dev/airbnb/airbnb.csv.gz".

(** Use case 1: fetch original data. *)
Definition fetch_census : M loc :=
  df <- read_csv census_url ;;
  display df ;;
  ret df.

(** Train a generator on the original training data. *)
Definition train_census (mostly : receiver) (df : loc) : M handle :=
  d <- load df ;;
  train mostly []
    [("config",
      PDict
        [("name", PStr "Conditional Generation Tutorial Census");
         ("tables",
          PList
            [PDict
               [("name", PStr "data");
                ("data", PFrame d);
                ("tabular_model_configuration",
                 PDict [("max_training_time", PInt 1)])]])])].

(** The seed of use case 1: random [sex] and [income], from a generator
    seeded with 1. *)
Definition make_seed (df : loc) : M loc :=
  np_seed 1 ;;
  let n := 48842 in
  income <- df_getattr df "income" ;;
  let p_inc := mean (eq_str income ">50K") in
  sex <- np_choice ["Male"; "Female"] n [Half; Half] ;;
  inc <- np_choice ["<=50K"; ">50K"] n [OneMinus p_inc; p_inc] ;;
  seed <- new_frame [("sex", of_strings sex); ("income", of_strings inc)] ;;
  display seed ;;
  ret seed.

Definition created_message (sh : nat * nat) : string :=
  "Created synthetic data with " ++ format_thousands (fst sh) ++
  " records and " ++ format_thousands (snd sh) ++ " attributes".

(** Probe the generator for synthetic data with a seed. *)
Definition probe_with_seed (mostly : receiver) (g : handle) (seed : loc)
  : M loc :=
  s <- load seed ;;
  syn <- probe mostly [] [("generator", PGenerator g); ("seed", PFrame s)] ;;
  sh <- df_shape syn ;;
  print (created_message sh) ;;
  ret syn.

(** [syn.sample(n=10)] *)
Definition show_sample (syn : loc) : M unit :=
  smp <- df_sample syn 10 ;;
  display smp.

(** The age distribution of the women, original against synthetic. Each
    curve is estimated and drawn as soon as its ages are selected, which
    the library may refuse; the figure is logged when [plt.show()] is
    reached, with the data of its curves. *)
Definition plot_female_age (df syn : loc) : M unit :=
  sex <- df_getattr df "sex" ;;
  women <- df_where df (eq_str sex "Female") ;;
  age <- df_getattr women "age" ;;
  lift (plot_kde py age) ;;
  sex' <- df_getattr syn "sex" ;;
  women' <- df_where syn (eq_str sex' "Female") ;;
  age' <- df_getattr women' "age" ;;
  lift (plot_kde py age') ;;
  emit (EPlot (Kde "Female Age Distribution" "Age"
                 [("original", age); ("synthetic", age')])).

(** Use case 2: fetch original data. *)
Definition fetch_airbnb : M loc :=
  df_orig <- read_csv airbnb_url ;;
  display df_orig ;;
  ret df_orig.

(** Pre-processing: works on a copy, concatenates latitude and longitude
    to the "LAT, LONG" format, drops the two columns, and takes the seed
    columns. Returns the notebook's [df] and [df_seed]. *)
Definition preprocess (df_orig : loc) : M (loc * loc) :=
  df <- df_copy df_orig ;;
  lat <- df_getitem df "latitude" ;;
  lon <- df_getitem df "longitude" ;;
  df_setitem df "LAT_LONG"
    (str_add (str_add_scalar (astype_str py lat) ", ") (astype_str py lon)) ;;
  df <- df_drop df ["latitude"; "longitude"] ;;
  let seed_cols := ["neighbourhood"; "LAT_LONG"] in
  df_seed <- df_select df seed_cols ;;
  h <- df_head df_seed ;;
  display h ;;
  ret (df, df_seed).

Definition column (name type : string) : pyval :=
  PDict [("name", PStr name); ("model_encoding_type", PStr type)].

(** Train a generator on the pre-processed AirBnB data. *)
Definition train_airbnb (mostly : receiver) (df : loc) : M handle :=
  d <- load df ;;
  let config :=
    PDict
      [("name", PStr "Conditional Generation Tutorial AirBnB");
       ("tables",
        PList
          [PDict
             [("name", PStr "AirBnB");
              ("data", PFrame d);
              ("columns",
               PList
                 [column "neighbourhood_group" "TABULAR_CATEGORICAL";
                  column "neighbourhood" "TABULAR_CATEGORICAL";
                  column "room_type" "TABULAR_CATEGORICAL";
                  column "price" "TABULAR_NUMERIC_AUTO";
                  column "minimum_nights" "TABULAR_NUMERIC_AUTO";
                  column "number_of_reviews" "TABULAR_NUMERIC_AUTO";
                  column "last_review" "TABULAR_DATETIME";
                  column "reviews_per_month" "TABULAR_NUMERIC_AUTO";
                  column "availability_365" "TABULAR_NUMERIC_AUTO";
                  column "LAT_LONG" "TABULAR_LAT_LONG"]);
              ("tabular_model_configuration",
               PDict [("max_training_time", PInt 2)])]])] in
  train mostly [] [("config", config)].

(** [plot_manhatten(df, title)]: a scatter plot of the locations of the
    global [df_orig], coloured by the prices of [df], clipped to
    [50, 2000], on a log scale. The colour values are computed first, as
    an argument of the call; the plot then looks up the two coordinate
    columns and draws, which fails when the colours do not fit the points.
    The figure is logged when [plt.show()] is reached, with the prices it
    is coloured by. *)
Definition plot_manhatten (df_orig : loc) (df : loc) (title : string)
  : M unit :=
  price <- df_getattr df "price" ;;
  colour <- lift (np_log_clip py price) ;;
  x <- df_getitem df_orig "longitude" ;;
  y <- df_getitem df_orig "latitude" ;;
  lift (plot_scatter py x y colour) ;;
  emit (EPlot (Scatter title x y price)).

Definition conditional_generation : M unit :=
  pip_install "mostlyai" ;;
  (* use case 1 *)
  df <- fetch_census ;;
  mostly <- MostlyAI ;;
  g <- train_census mostly df ;;
  seed <- make_seed df ;;
  syn <- probe_with_seed mostly g seed ;;
  show_sample syn ;;
  plot_female_age df syn ;;
  (* use case 2 *)
  df_orig <- fetch_airbnb ;;
  p <- preprocess df_orig ;;
  let df := fst p in
  let df_seed := snd p in
  g_airbnb <- train_airbnb mostly df ;;
  syn_partial <- probe_with_seed mostly g_airbnb df_seed ;;
  plot_manhatten df_orig df_orig "Original Data" ;;
  plot_manhatten df_orig syn_partial "Partially Synthetic Data".

(** *** Running a notebook in a fresh kernel *)

Inductive notebook :=
| GettingStarted
| ConditionalGeneration.

Definition program (nb : notebook) : M unit :=
  match nb with
  | GettingStarted => getting_started
  | ConditionalGeneration => conditional_generation
  end.

(** A fresh kernel: no objects, nothing logged, the generator seeded from
    the operating system. *)
Definition fresh (entropy : rng_state) : kernel :=
  mkKernel [] entropy [].

Definition run (nb : notebook) (entropy : rng_state) : result unit * kernel :=
  program nb (fresh entropy).

Definition trace (nb : notebook) (entropy : rng_state) : list event :=
  log (snd (run nb entropy)).

End Notebooks.

(** ** A concrete world to run the notebooks in *)

Module Demo.

(** Printing of the floats that occur in the demo files (all are short
    dyadic numbers, which Python prints exactly). *)
Definition demo_float_str (f : spec_float) : string :=
  match f with
  | S754_finite false 163%positive (-2)%Z => "40.75"
  | S754_finite false 81%positive (-1)%Z => "40.5"
  | S754_finite true 295%positive (-2)%Z => "-73.75"
  | S754_finite true 74%positive 0%Z => "-74.0"
  | _ => "nan"
  end.

Definition lat1 : value := VFloat (S754_finite false 163 (-2)).
Definition lat2 : value := VFloat (S754_finite false 81 (-1)).
Definition lon1 : value := VFloat (S754_finite true 295 (-2)).
Definition lon2 : value := VFloat (S754_finite true 74 0).

(** A stand-in for numpy's generator: it cycles through the options,
    starting at the one the state points to. *)
Fixpoint cycle {A : Type} (options rest : list A) (n : nat) : list A :=
  match n with
  | O => []
  | S n' =>
      match rest with
      | o :: rest' => o :: cycle options rest' n'
      | [] =>
          match options with
          | o :: rest' => o :: cycle options rest' n'
          | [] => []
          end
      end
  end.

(** Stand-ins for the computations behind the figures. They refuse what
    the libraries refuse: prices that are not numbers, ages that are not
    numbers or are fewer than two different ones, colours that are not as
    many as the points. The clipped prices stand for their logarithms. *)
Definition is_number (v : value) : bool :=
  match v with
  | VInt _ | VFloat _ => true
  | _ => false
  end.

Definition clip (v : value) : value :=
  match v with
  | VInt z => VInt (Z.max 50 (Z.min 2000 z))
  | _ => v
  end.

Definition log_clip (s : Series) : result Series :=
  if forallb is_number s then Ok (map clip s)
  else Raise (TypeError "'>=' not supported between 'str' and 'int'").

Definition same (v w : value) : bool :=
  match v, w with
  | VInt a, VInt b => Z.eqb a b
  | VFloat a, VFloat b => SFeqb a b
  | _, _ => false
  end.

Definition kde (s : Series) : result unit :=
  if forallb is_number s then
    match s with
    | [] => Raise (TypeError "no numeric data to plot")
    | v :: rest =>
        if forallb (same v) rest
        then Raise (ValueError "singular data covariance matrix")
        else Ok tt
    end
  else Raise (TypeError "no numeric data to plot").

Definition scatter (x y c : Series) : result unit :=
  if Nat.eqb (length c) (length x) && Nat.eqb (length x) (length y)
  then Ok tt
  else Raise (ValueError "'c' argument is inconsistent with 'x' and 'y'").

Definition python : Python :=
  mkPython demo_float_str
    (fun s => Z.to_N s)
    (fun r options n _ =>
       (Ok (cycle options (skipn (N.to_nat r) options) n), (r + 1)%N))
    (fun r _ n => (seq 0 n, (r + 1)%N))
    log_clip kde scatter.

Definition census : DataFrame :=
  mkFrame 3
    [("age", [VInt 39; VInt 50; VInt 38]);
     ("sex", [VStr "Male"; VStr "Female"; VStr "Female"]);
     ("native_country",
      [VStr "United-States"; VStr "Mexico"; VStr "Cuba"]);
     ("income", [VStr "<=50K"; VStr ">50K"; VStr "<=50K"])].

Definition airbnb : DataFrame :=
  mkFrame 2
    [("neighbourhood_group", [VStr "Manhattan"; VStr "Manhattan"]);
     ("neighbourhood", [VStr "Midtown"; VStr "Harlem"]);
     ("latitude", [lat1; lat2]);
     ("longitude", [lon1; lon2]);
     ("room_type", [VStr "Entire home/apt"; VStr "Private room"]);
     ("price", [VInt 225; VInt 150])].

Definition files (url : string) : result DataFrame :=
  if String.eqb url airbnb_url then Ok airbnb else Ok census.

(** The frame carried by the keyword [seed] of a call, if any. *)
Definition seed_of (c : call) : option DataFrame :=
  match lookup "seed" (kwargs c) with
  | Some (PFrame d) => Some d
  | _ => None
  end.

(** The number of rows asked for by the keyword [size] of a call; ten
    when there is none. *)
Definition size_of (c : call) : nat :=
  match lookup "size" (kwargs c) with
  | Some (PInt n) => Z.to_nat n
  | _ => 10
  end.

(** Sampled columns: women and men in turn, three ages and two prices. *)
Definition sampled (fill : Z) (n : nat) : list (string * Series) :=
  [("sex", cycle [VStr "Female"; VStr "Male"] [] n);
   ("age", cycle [VInt fill; VInt (fill + 7); VInt (fill + 19)] [] n);
   ("price", cycle [VInt (fill + 40); VInt (fill + 100)] [] n)].

(** A stand-in for the service's sampling: with a seed, the answer has the
    rows and columns of the seed, and the sampled columns that the seed
    lacks; without a seed it has as many sampled rows as asked for. *)
Definition synthetic (fill : Z) (c : call) : DataFrame :=
  match seed_of c with
  | Some d =>
      mkFrame (nrows d)
        (columns d ++
         filter (fun col => negb (has_column d (fst col)))
           (sampled fill (nrows d)))
  | None => mkFrame (size_of c) (sampled fill (size_of c))
  end.

(** Another sampling, with one column more. *)
Definition wider (c : call) : DataFrame :=
  let d := synthetic 61 c in
  mkFrame (nrows d)
    (columns d ++ [("room_type", repeat (VStr "Private room") (nrows d))]).

(** A sampling that ignores the seed: ten rows, whatever is asked for. *)
Definition ten_rows (c : call) : DataFrame :=
  mkFrame 10 (sampled 61 10).

(** A stand-in for the service: generators and datasets are numbered by
    the calls made so far. *)
Definition service (sampling : call -> DataFrame) : Service :=
  mkService
    (fun _ => Ok tt)
    (fun h _ => Ok (length h))
    (fun _ c => Ok (sampling c))
    (fun h _ => Ok (length h))
    (fun _ c => Ok (sampling c))
    (fun _ _ => Ok tt).



(** A service that is down. *)
Definition offline : Service :=
  mkService
    (fun _ => Raise (RemoteError "connection refused"))
    (fun _ _ => Raise (RemoteError "connection refused"))
    (fun _ _ => Raise (RemoteError "connection refused"))
    (fun _ _ => Raise (RemoteError "connection refused"))
    (fun _ _ => Raise (RemoteError "connection refused"))
    (fun _ _ => Raise (RemoteError "connection refused")).

End Demo.


(** ** The properties of the calls, as predicates on the log *)

Definition keys (kv : list (string * pyval)) : list string :=
  map fst kv.

Definition subset (a b : list string) : bool :=
  forallb (fun k => mem k b) a.

(** The same keys, none twice. *)
Definition same_keys (a b : list string) : bool :=
  subset a b && subset b a && Nat.eqb (length a) (length b).

(** The value passed for the parameter [name], the [pos]-th one, of a call:
    by keyword or by position. *)
Definition argument (name : string) (pos : nat) (c : call) : option pyval :=
  match lookup name (kwargs c) with
  | Some v => Some v
  | None => nth_error (args c) pos
  end.

Definition on_client (c : call) : bool :=
  match recv c with
  | RClient _ => true
  | _ => false
  end.

(** The call of an event that invokes the method [m] of the SDK object. *)
Definition calls (m : string) (e : event) : option call :=
  match e with
  | ECall c _ => if on_client c && String.eqb (meth c) m then Some c else None
  | _ => None
  end.

(** A property of every event together with what was logged before it. *)
Fixpoint scan (P : list event -> event -> bool) (pre l : list event) : bool :=
  match l with
  | [] => true
  | e :: rest => P pre e && scan P (pre ++ [e]) rest
  end.

Definition throughout (P : list event -> event -> bool) (l : list event)
  : bool :=
  scan P [] l.

(** A property of every event together with what was logged after it. *)
Fixpoint followed (P : event -> list event -> Prop) (l : list event) : Prop :=
  match l with
  | [] => True
  | e :: rest => P e rest /\ followed P rest
  end.

Definition count (P : event -> bool) (l : list event) : nat :=
  length (filter P l).

Definition is_call (m : string) (e : event) : bool :=
  match calls m e with
  | Some _ => true
  | None => false
  end.

(** *** The configuration passed to [train] *)

Definition config_of (c : call) : option pyval :=
  argument "config" 0 c.

Definition tables_of (c : call) : list pyval :=
  match config_of c with
  | Some (PDict kv) =>
      match lookup "tables" kv with
      | Some (PList ts) => ts
      | _ => []
      end
  | _ => []
  end.

(** [{name, data, columns?, tabular_model_configuration?}] *)
Definition table_shape (t : pyval) : bool :=
  match t with
  | PDict kv =>
      subset ["name"; "data"] (keys kv) &&
      subset (keys kv)
        ["name"; "data"; "columns"; "tabular_model_configuration"] &&
      Nat.eqb (length (keys kv)) (length (nodup string_dec (keys kv)))
  | _ => false
  end.

(** [{name, tables: [...]}] *)
Definition config_shape (cfg : pyval) : bool :=
  match cfg with
  | PDict kv =>
      same_keys (keys kv) ["name"; "tables"] &&
      match lookup "tables" kv with
      | Some (PList ts) => forallb table_shape ts
      | _ => false
      end
  | _ => false
  end.

Definition train_config_shaped (e : event) : bool :=
  match calls "train" e with
  | Some c =>
      match config_of c with
      | Some cfg => config_shape cfg
      | None => false
      end
  | None => true
  end.

(** *** Column and model configuration *)

Definition encoding_types : list string :=
  ["TABULAR_CATEGORICAL"; "TABULAR_NUMERIC_AUTO"; "TABULAR_DATETIME";
   "TABULAR_LAT_LONG"].

(** [{name, model_encoding_type}] with a recognized encoding type *)
Definition column_entry_ok (e : pyval) : bool :=
  match e with
  | PDict kv =>
      same_keys (keys kv) ["name"; "model_encoding_type"] &&
      match lookup "model_encoding_type" kv with
      | Some (PStr t) => mem t encoding_types
      | _ => false
      end
  | _ => false
  end.

(** Only [max_training_time], a positive number of minutes. *)
Definition model_configuration_ok (m : pyval) : bool :=
  match m with
  | PDict [("max_training_time", PInt minutes)] => Z.ltb 0 minutes
  | _ => false
  end.

Definition table_configuration_ok (t : pyval) : bool :=
  match t with
  | PDict kv =>
      match lookup "columns" kv with
      | Some (PList entries) => forallb column_entry_ok entries
      | Some _ => false
      | None => true
      end &&
      match lookup "tabular_model_configuration" kv with
      | Some m => model_configuration_ok m
      | None => true
      end
  | _ => false
  end.

Definition train_configuration_ok (e : event) : bool :=
  match calls "train" e with
  | Some c => forallb table_configuration_ok (tables_of c)
  | None => true
  end.

(** The column entries and model configurations passed to [train]. *)
Definition column_entries (e : event) : list pyval :=
  match calls "train" e with
  | Some c =>
      flat_map
        (fun t =>
           match t with
           | PDict kv =>
               match lookup "columns" kv with
               | Some (PList entries) => entries
               | _ => []
               end
           | _ => []
           end)
        (tables_of c)
  | None => []
  end.

(** *** The arguments of [probe] and the use of its answer *)

Definition is_generator (v : option pyval) : bool :=
  match v with
  | Some (PGenerator _) => true
  | _ => false
  end.

(** A generator, and at most one of [size] (an integer) and [seed]
    (tabular data). *)
Definition probe_arguments_ok (c : call) : bool :=
  is_generator (argument "generator" 0 c) &&
  Nat.leb (length (args c)) 1 &&
  subset (keys (kwargs c)) ["generator"; "size"; "seed"] &&
  match lookup "size" (kwargs c), lookup "seed" (kwargs c) with
  | Some _, Some _ => false
  | Some (PInt _), None => true
  | None, Some (PFrame _) => true
  | None, None => true
  | _, _ => false
  end.

Definition probe_call_ok (e : event) : bool :=
  match calls "probe" e with
  | Some c => probe_arguments_ok c
  | None => true
  end.

(** What each notebook does first with the frame a probe answered: the
    getting-started notebook displays it, the conditional-generation
    notebook reads its [shape] and prints it. *)
Definition first_use (nb : notebook) (d : DataFrame) : event :=
  match nb with
  | GettingStarted => EDisplay d
  | ConditionalGeneration => EPrint (created_message (shape d))
  end.

Definition probe_answer_used (nb : notebook) (e : event) (post : list event)
  : Prop :=
  match e with
  | ECall c a =>
      if on_client c && String.eqb (meth c) "probe" then
        match a with
        | Ok (PFrame d) => List.hd_error post = Some (first_use nb d)
        | Ok _ => False
        | Raise _ => post = []
        end
      else True
  | _ => True
  end.

(** *** The arguments of [generate] and the use of its answer *)

Definition generate_arguments_ok (c : call) : bool :=
  is_generator (argument "generator" 0 c) &&
  Nat.leb (length (args c)) 2 &&
  subset (keys (kwargs c)) ["generator"; "size"] &&
  match argument "size" 1 c with
  | Some (PInt size) => Z.eqb size 100000
  | _ => false
  end.

Definition generate_call_ok (e : event) : bool :=
  match calls "generate" e with
  | Some c => generate_arguments_ok c
  | None => true
  end.

Definition is_synthetic (v : pyval) : bool :=
  match v with
  | PSynthetic _ => true
  | _ => false
  end.

(** A synthetic dataset is only ever the receiver of [data()]; it is
    passed to no call. *)
Definition dataset_only_data (e : event) : bool :=
  match e with
  | ECall c _ =>
      match recv c with
      | RSynthetic _ =>
          String.eqb (meth c) "data" &&
          Nat.eqb (length (args c)) 0 && Nat.eqb (length (kwargs c)) 0
      | _ => true
      end &&
      negb (existsb is_synthetic (args c)) &&
      negb (existsb is_synthetic (map snd (kwargs c)))
  | _ => true
  end.

(** [generate] answers a dataset handle; the next thing the notebook does
    is to call [data()] on that handle, and the frame it answers is what
    the notebook displays. *)
Definition dataset_read_by_data (e : event) (post : list event) : Prop :=
  match e with
  | ECall c a =>
      if on_client c && String.eqb (meth c) "generate" then
        match a with
        | Ok (PSynthetic s) =>
            match post with
            | ECall c' (Ok (PFrame d)) :: e' :: _ =>
                c' = mkCall (RSynthetic s) "data" [] [] /\ e' = EDisplay d
            | ECall c' (Raise _) :: rest =>
                c' = mkCall (RSynthetic s) "data" [] [] /\ rest = []
            | _ => False
            end
        | Ok _ => False
        | Raise _ => post = []
        end
      else True
  | _ => True
  end.

(** *** The methods invoked on the SDK object *)

Definition client_methods (l : list event) : list string :=
  flat_map
    (fun e =>
       match e with
       | ECall c _ => if on_client c then [meth c] else []
       | _ => []
       end)
    l.

Definition first_client (e : event) : bool :=
  match e with
  | ENew _ c => Nat.eqb c 0
  | ECall c _ =>
      match recv c with
      | RClient c => Nat.eqb c 0
      | _ => true
      end
  | _ => true
  end.

Definition client_method_ok (e : event) : bool :=
  match e with
  | ECall c _ =>
      if on_client c then mem (meth c) ["train"; "probe"; "generate"]
      else true
  | _ => true
  end.

(** *** Waiting for the training *)

(** The position of a parameter in a signature. *)
Fixpoint position (name : string) (parameters : list string) : nat :=
  match parameters with
  | [] => 0
  | p :: rest => if String.eqb name p then 0 else S (position name rest)
  end.

(** What a [train] call passes for the parameter [name], by keyword or by
    position. *)
Definition passed (name : string) (c : call) : option pyval :=
  argument name (position name train_parameters) c.

(** [start] and [wait] both passed as [True], or both omitted; and no
    positional argument beyond the declared parameters. *)
Definition train_flags_ok (e : event) : bool :=
  match calls "train" e with
  | Some c =>
      Nat.leb (length (args c)) (length train_parameters) &&
      match passed "start" c, passed "wait" c with
      | Some (PBool true), Some (PBool true) => true
      | None, None => true
      | _, _ => false
      end
  | None => true
  end.

(** The value of a flag of [train] in effect for a call: the one passed,
    by keyword or by position, or else the declared default. *)
Definition effective (name : string) (c : call) : bool :=
  match passed name c with
  | Some (PBool b) => b
  | Some _ => false
  | None =>
      match lookup name train_defaults with
      | Some b => b
      | None => false
      end
  end.

(** A [train] call starts the training and waits for it. *)
Definition train_waits (e : event) : bool :=
  match calls "train" e with
  | Some c => effective "start" c && effective "wait" c
  | None => true
  end.

(** [e] is a [train] call that started the training, waited for it, and
    answered the generator [g]. *)
Definition completed_training (g : handle) (e : event) : bool :=
  match e with
  | ECall c (Ok (PGenerator g')) =>
      Nat.eqb g' g && on_client c && String.eqb (meth c) "train" &&
      effective "start" c && effective "wait" c
  | _ => false
  end.

(** The generator passed to [probe] or [generate] came out of a completed
    training logged before. *)
Definition generator_ready (pre : list event) (e : event) : bool :=
  match e with
  | ECall c _ =>
      if on_client c && mem (meth c) ["probe"; "generate"] then
        match argument "generator" 0 c with
        | Some (PGenerator g) => existsb (completed_training g) pre
        | _ => false
        end
      else true
  | _ => true
  end.

(** *** Seeds *)

Definition table_data (t : pyval) : option DataFrame :=
  match t with
  | PDict kv =>
      match lookup "data" kv with
      | Some (PFrame d) => Some d
      | _ => None
      end
  | _ => None
  end.



(** The seeds passed to [probe], in order. *)
Definition seeds (l : list event) : list DataFrame :=
  flat_map
    (fun e =>
       match calls "probe" e with
       | Some c =>
           match lookup "seed" (kwargs c) with
           | Some (PFrame s) => [s]
           | _ => []
           end
       | None => []
       end)
    l.






Definition gs_census_url : string :=
  "https://github.com/mostly-ai/public-demo-data/raw/refs/heads/dev/census/census.csv.gz".


(** *** Outputs and what they depend on *)

Definition is_output (e : event) : bool :=
  match e with
  | EDisplay _ | EPrint _ | EPlot _ => true
  | _ => false
  end.

Definition outputs (l : list event) : list event :=
  filter is_output l.

(** The [i]-th output of a run, if the run gets that far. *)
Definition output (py : Python) (files : string -> result DataFrame)
  (svc : Service) (nb : notebook) (entropy : rng_state) (i : nat)
  : option event :=
  nth_error (outputs (trace py files svc nb entropy)) i.

Definition producible (nb : notebook) (i : nat) : Prop :=
  exists py files svc entropy a, output py files svc nb entropy i = Some a.

(** The [i]-th output is the same in all runs on the same files, whatever
    the service answers and whatever state the random generator starts
    in. *)
Definition service_independent (nb : notebook) (i : nat) : Prop :=
  forall py files svc1 svc2 entropy1 entropy2 a b,
    output py files svc1 nb entropy1 i = Some a ->
    output py files svc2 nb entropy2 i = Some b ->
    a = b.

(** What a cell outputs when it is run alone, in a kernel that holds
    nothing but the frame [d] (at location 0). *)
Definition alone {A : Type} (cell : M A) (d : DataFrame) : option event :=
  List.hd_error (outputs (log (snd (cell (mkKernel [d] 0%N []))))).

(** The outputs that are computed locally from a downloaded file: the
    display of the file, the seed of use case 1, the head of the AirBnB
    seed, and the plot of the original AirBnB data. *)
Definition local_output (py : Python) (files : string -> result DataFrame)
  (nb : notebook) (i : nat) : option event :=
  match nb, i with
  | GettingStarted, 0 =>
      match files gs_census_url with
      | Ok d => alone (display 0) d
      | Raise _ => None
      end
  | ConditionalGeneration, 0 =>
      match files census_url with
      | Ok d => alone (display 0) d
      | Raise _ => None
      end
  | ConditionalGeneration, 1 =>
      match files census_url with
      | Ok d => alone (make_seed py 0) d
      | Raise _ => None
      end
  | ConditionalGeneration, 5 =>
      match files airbnb_url with
      | Ok d => alone (display 0) d
      | Raise _ => None
      end
  | ConditionalGeneration, 6 =>
      match files airbnb_url with
      | Ok d => alone (preprocess py 0) d
      | Raise _ => None
      end
  | ConditionalGeneration, 8 =>
      match files airbnb_url with
      | Ok d => alone (plot_manhatten py 0 0 "Original Data") d
      | Raise _ => None
      end
  | _, _ => None
  end.

Definition is_local (nb : notebook) (i : nat) : bool :=
  match nb, i with
  | GettingStarted, 0 => true
  | ConditionalGeneration, (0 | 1 | 5 | 6 | 8) => true
  | _, _ => false
  end.

(** The methods each notebook invokes on its SDK object. *)
Definition methods_of (nb : notebook) : list string :=
  match nb with
  | GettingStarted => ["train"; "probe"; "generate"]
  | ConditionalGeneration => ["train"; "probe"]
  end.

Definition client_method_in (ms : list string) (e : event) : bool :=
  match e with
  | ECall c _ => if on_client c then mem (meth c) ms else true
  | _ => true
  end.

(** The checks that every logged event passes, in every run. *)
Definition call_checks (nb : notebook) : list (event -> bool) :=
  [train_config_shaped; train_configuration_ok; probe_call_ok;
   generate_call_ok; dataset_only_data; client_method_ok;
   client_method_in (methods_of nb); first_client; train_flags_ok;
   train_waits].

Definition is_new (e : event) : bool :=
  match e with
  | ENew _ _ => true
  | _ => false
  end.

(** The number of outputs of a complete run. *)
Definition cells_with_output (nb : notebook) : nat :=
  match nb with
  | GettingStarted => 4
  | ConditionalGeneration => 10
  end.

(** The method [m] is invoked on the SDK object in some run of [nb]. *)
Definition invoked (nb : notebook) (m : string) : Prop :=
  exists py files svc entropy,
    In m (client_methods (trace py files svc nb entropy)).


(** A small summary of an output, enough to tell apart the outputs of two
    runs: the text of a print, the first row of a displayed frame, the
    first point of the last curve, the first price of a scatter plot. *)
Definition fingerprint (o : option event) : option (string * list value) :=
  match o with
  | Some (EPrint s) => Some (s, [])
  | Some (EDisplay d) =>
      Some ("display", flat_map (fun c => firstn 1 (snd c)) (columns d))
  | Some (EPlot (Kde _ _ curves)) =>
      Some ("kde", firstn 1 (snd (last curves ("", []))))
  | Some (EPlot (Scatter _ _ _ price)) => Some ("scatter", firstn 1 price)
  | _ => None
  end.

(** [d] is what some [probe] call of the log answered. *)
Definition probed (t : list event) (d : DataFrame) : Prop :=
  exists c,
    In (ECall c (Ok (PFrame d))) t /\
    is_call "probe" (ECall c (Ok (PFrame d))) = true.

(** The later uses of the probe answers in the conditional-generation
    notebook: [.sample] (output 3), selection of rows and of the column
    [age] (output 4), and of the column [price] (output 9). *)
Definition explored_as_frames (t : list event) : Prop :=
  (forall o, nth_error (outputs t) 3 = Some o ->
     exists syn idx, probed t syn /\ o = EDisplay (take syn idx)) /\
  (forall o, nth_error (outputs t) 4 = Some o ->
     exists syn sex age original,
       probed t syn /\ getattr syn "sex" = Ok sex /\
       getattr (where_ syn (eq_str sex "Female")) "age" = Ok age /\
       o = EPlot (Kde "Female Age Distribution" "Age"
                    [("original", original); ("synthetic", age)])) /\
  (forall o, nth_error (outputs t) 9 = Some o ->
     exists syn price x y,
       probed t syn /\ getattr syn "price" = Ok price /\
       o = EPlot (Scatter "Partially Synthetic Data" x y price)).

(** ** Well-formed frames, reliable services, and the answers of a run *)

(** Column names are unique and every column has [nrows] entries: what
    pandas guarantees of every frame it builds. *)
Definition well_formed (df : DataFrame) : Prop :=
  NoDup (column_names df) /\
  Forall (fun c => length (snd c) = nrows df) (columns df).

(** A service none of whose calls raises. *)
Definition reliable (svc : Service) : Prop :=
  (forall h e, sdk_connect svc h <> Raise e) /\
  (forall h c e, sdk_train svc h c <> Raise e) /\
  (forall h c e, sdk_probe svc h c <> Raise e) /\
  (forall h c e, sdk_generate svc h c <> Raise e) /\
  (forall h c e, sdk_data svc h c <> Raise e) /\
  (forall h c e, sdk_reports svc h c <> Raise e).

(** The frames the [probe] calls of a log answered, in order. *)
Definition answers (l : list event) : list DataFrame :=
  flat_map
    (fun e =>
       match e with
       | ECall c (Ok (PFrame d)) =>
           if on_client c && String.eqb (meth c) "probe" then [d] else []
       | _ => []
       end)
    l.

(** The frames passed to [train] as table data, in order. *)
Definition trained_frames (l : list event) : list DataFrame :=
  flat_map
    (fun e =>
       match calls "train" e with
       | Some c =>
           flat_map
             (fun t =>
                match table_data t with
                | Some d => [d]
                | None => []
                end)
             (tables_of c)
       | None => []
       end)
    l.

(** The rows of a column whose companion value is the string [x]. *)
Definition rows_where (by_ : Series) (x : string) (s : Series) : Series :=
  map snd
    (filter
       (fun p : value * value =>
          match fst p with
          | VStr y => String.eqb y x
          | _ => false
          end)
       (combine by_ s)).

Definition is_comma (c : ascii) : bool :=
  Ascii.eqb c ","%char.

(** The generator state after the seed cell of use case 1: seeded with 1,
    then advanced by the two draws. *)
Definition state_after_seed (py : Python) (census : DataFrame) : rng_state :=
  rng (snd (make_seed py 0 (mkKernel [census] 0%N []))).






(** How the scatter plot of the points [x], [y] coloured by the prices of
    the frame [d] ends. *)
Definition scatter_outcome (py : Python) (x y : Series) (d : DataFrame)
  : result unit :=
  match getattr d "price" with
  | Ok price =>
      match np_log_clip py price with
      | Ok colour => plot_scatter py x y colour
      | Raise e => Raise e
      end
  | Raise e => Raise e
  end.

(** What the stand-in service answers to the AirBnB seed of the demo
    files. *)
Definition demo_partial : DataFrame :=
  mkFrame 2
    [("neighbourhood", [VStr "Midtown"; VStr "Harlem"]);
     ("LAT_LONG", [VStr "40.75, -73.75"; VStr "40.5, -74.0"]);
     ("sex", [VStr "Female"; VStr "Male"]);
     ("age", [VInt 30; VInt 37]);
     ("price", [VInt 70; VInt 130])].


Definition digits_of (n : nat) : list ascii :=
  list_ascii_of_string (NilZero.string_of_uint (Nat.to_uint n)).

(** More demo data: a call, a census file without [income], and a kernel
    whose frame has coordinates but no [neighbourhood]. *)
Definition any_call : call := mkCall (RClient 0) "probe" [] [].

Definition no_income (url : string) : result DataFrame :=
  Ok (mkFrame 1 [("age", [VInt 39])]).

Definition no_neighbourhood : kernel :=
  mkKernel
    [mkFrame 1 [("latitude", [Demo.lat1]); ("longitude", [Demo.lon1])]]
    0%N [].

(** * Proofs *)

Open Scope list_scope.

(** ** Facts about the pandas operations *)

Lemma mem_In (k : string) (ks : list string) :
  mem k ks = true <-> In k ks.
Proof.
  unfold mem. rewrite existsb_exists. split.
  - intros (x & Hx & E). apply String.eqb_eq in E. now subst.
  - intros H. exists k. split; [assumption | apply String.eqb_refl].
Qed.

Lemma subset_incl (a b : list string) :
  subset a b = true <-> incl a b.
Proof.
  unfold subset, incl. rewrite forallb_forall.
  split; intros H k Hk; apply mem_In; auto.
Qed.

Lemma has_column_In (d : DataFrame) (k : string) :
  has_column d k = true <-> In k (column_names d).
Proof. apply mem_In. Qed.

Lemma lookup_In {A : Type} (k : string) (l : list (string * A)) :
  lookup k l <> None <-> In k (map fst l).
Proof.
  induction l as [|[k' a] l IH]; cbn.
  - split; [congruence | tauto].
  - destruct (String.eqb k k') eqn:E.
    + apply String.eqb_eq in E. subst. split; [auto | congruence].
    + apply String.eqb_neq in E. rewrite IH. split; [auto | intros [?|?]];
        congruence || assumption.
Qed.

Lemma getitem_has (d : DataFrame) (k : string) (s : Series) :
  getitem d k = Ok s -> In k (column_names d).
Proof.
  unfold getitem. intros H. apply lookup_In.
  destruct (lookup k (columns d)); congruence.
Qed.


Lemma lookup_set_column (k : string) (s : Series) cols :
  lookup k (set_column k s cols) = Some s.
Proof.
  induction cols as [|[k' s'] cols IH]; cbn.
  - now rewrite String.eqb_refl.
  - destruct (String.eqb k k') eqn:E; cbn.
    + now rewrite String.eqb_refl.
    + now rewrite E.
Qed.

Lemma names_set_column (k : string) (s : Series) cols (c : string) :
  In c (map fst (set_column k s cols)) <-> In c (map fst cols) \/ c = k.
Proof.
  induction cols as [|[k' s'] cols IH]; cbn.
  - intuition congruence.
  - destruct (String.eqb k k') eqn:E; cbn.
    + apply String.eqb_eq in E. subst k'. intuition congruence.
    + rewrite IH. tauto.
Qed.

Lemma lookup_kept (ks : list string) (k : string) cols :
  mem k ks = false ->
  lookup k (filter (fun c : string * Series => negb (mem (fst c) ks)) cols)
  = lookup k cols.
Proof.
  intros N. induction cols as [|[k' s'] cols IH]; cbn; [reflexivity|].
  destruct (mem k' ks) eqn:M; cbn.
  - destruct (String.eqb k k') eqn:E; [|assumption].
    apply String.eqb_eq in E. congruence.
  - now rewrite IH.
Qed.

Lemma names_kept (ks : list string) cols (c : string) :
  In c (map fst
          (filter (fun c : string * Series => negb (mem (fst c) ks)) cols))
  <-> In c (map fst cols) /\ ~ In c ks.
Proof.
  rewrite !in_map_iff. split.
  - intros ([k s] & <- & H). apply filter_In in H. destruct H as [H M].
    split; [now exists (k, s) |]. cbn in *. rewrite <- mem_In.
    now destruct (mem k ks).
  - intros (([k s] & <- & H) & N). exists (k, s). split; [reflexivity|].
    apply filter_In. split; [assumption|]. cbn in *.
    rewrite <- mem_In in N. now destruct (mem k ks).
Qed.

Lemma missing_nil (d : DataFrame) (ks : list string) :
  missing d ks = [] <-> incl ks (column_names d).
Proof.
  unfold missing, incl. induction ks as [|k ks IH]; cbn.
  - split; [intros _ ? [] | reflexivity].
  - destruct (has_column d k) eqn:H; cbn.
    + rewrite IH. apply has_column_In in H.
      split; [intros ? ? [<-|?]; auto | auto].
    + split; [discriminate|]. intros I.
      specialize (I k (or_introl eq_refl)). apply has_column_In in I.
      congruence.
Qed.

Lemma names_pick cols (ks : list string) :
  incl ks (map fst cols) -> map fst (pick cols ks) = ks.
Proof.
  induction ks as [|k ks IH]; cbn; intros I; [reflexivity|].
  assert (H : lookup k cols <> None)
    by (apply lookup_In, I; now left).
  destruct (lookup k cols); [|congruence]. cbn. f_equal.
  apply IH. intros x Hx. apply I. now right.
Qed.

Lemma drop_ok (d d' : DataFrame) (ks : list string) :
  drop d ks = Ok d' ->
  incl ks (column_names d) /\
  d' = mkFrame (nrows d)
         (filter (fun c => negb (mem (fst c) ks)) (columns d)).
Proof.
  unfold drop. destruct (missing d ks) eqn:M; [|discriminate].
  intros [= <-]. split; [now apply missing_nil | reflexivity].
Qed.

Lemma select_ok (d d' : DataFrame) (ks : list string) :
  select d ks = Ok d' ->
  incl ks (column_names d) /\ column_names d' = ks.
Proof.
  unfold select. destruct (missing d ks) eqn:M; [|discriminate].
  intros [= <-]. apply missing_nil in M. split; [assumption|].
  now apply names_pick.
Qed.

Lemma select_total (d : DataFrame) (ks : list string) :
  incl ks (column_names d) ->
  select d ks = Ok (mkFrame (nrows d) (pick (columns d) ks)).
Proof.
  intros I. apply missing_nil in I. unfold select. now rewrite I.
Qed.

Lemma drop_total (d : DataFrame) (ks : list string) :
  incl ks (column_names d) ->
  drop d ks =
  Ok (mkFrame (nrows d)
        (filter (fun c => negb (mem (fst c) ks)) (columns d))).
Proof.
  intros I. apply missing_nil in I. unfold drop. now rewrite I.
Qed.




Lemma length_str_add (s t : Series) :
  length (str_add s t) = Nat.min (length s) (length t).
Proof.
  revert t. induction s as [|x s IH]; intros [|y t]; cbn; try reflexivity.
  now rewrite IH.
Qed.

(** ** Facts about the heap *)

Lemma nth_alloc (h : list DataFrame) (d : DataFrame) :
  nth (length h) (h ++ [d]) empty_frame = d.
Proof. rewrite app_nth2, Nat.sub_diag; [reflexivity | lia]. Qed.

Lemma nth_last (h : list DataFrame) (d : DataFrame) (n : nat) :
  n = length h -> nth n (h ++ [d]) empty_frame = d.
Proof. intros ->. apply nth_alloc. Qed.

Lemma nth_old (h t : list DataFrame) (l : loc) :
  l < length h -> nth l (h ++ t) empty_frame = nth l h empty_frame.
Proof. intros H. now apply app_nth1. Qed.

Lemma update_alloc (h : list DataFrame) (d d' : DataFrame) :
  update (length h) d' (h ++ [d]) = h ++ [d'].
Proof. induction h as [|x h IH]; cbn; [reflexivity | now rewrite IH]. Qed.

Lemma length_alloc (h : list DataFrame) (d : DataFrame) :
  length (h ++ [d]) = S (length h).
Proof. rewrite length_app. cbn. lia. Qed.

(** ** Symbolic execution of a notebook

    A run is unfolded statement by statement; every point where a download,
    a service call or a pandas operation may raise splits the proof in
    two. *)

#[local] Arguments getitem : simpl never.
#[local] Arguments getattr : simpl never.
#[local] Arguments drop : simpl never.
#[local] Arguments select : simpl never.
#[local] Arguments frame_of_dict : simpl never.
#[local] Arguments setitem : simpl never.
#[local] Arguments head : simpl never.
#[local] Arguments where_ : simpl never.
#[local] Arguments take : simpl never.
#[local] Arguments shape : simpl never.
#[local] Arguments created_message : simpl never.
#[local] Arguments eq_str : simpl never.
#[local] Arguments mean : simpl never.
#[local] Arguments astype_str : simpl never.
#[local] Arguments str_add : simpl never.
#[local] Arguments str_add_scalar : simpl never.
#[local] Arguments of_strings : simpl never.
#[local] Arguments column_names : simpl never.
#[local] Arguments Nat.ltb : simpl never.
#[local] Arguments repeat : simpl never.
#[local] Arguments Nat.of_num_uint : simpl never.

Create HintDb notebook.

#[local] Hint Unfold bind ret lift emit alloc load store invoke
  pip_install read_csv display print MostlyAI train probe generate data
  reports df_copy df_getitem df_getattr df_setitem df_drop df_select df_head
  df_where df_shape new_frame df_sample np_seed np_choice
  fetch_census train_census make_seed probe_with_seed show_sample
  plot_female_age fetch_airbnb preprocess train_airbnb plot_manhatten
  getting_started conditional_generation program run trace fresh output
  : notebook.

Ltac simp := repeat (progress (autounfold with notebook; cbn)).

Ltac step :=
  match goal with
  | |- context [match ?x with _ => _ end] =>
      match x with
      | context [match _ with _ => _ end] => fail 1
      | _ => destruct x eqn:?
      end
  end; cbn.

Ltac execute := simp; repeat step.

(** To state something about all runs of a notebook, the statement is set
    aside while the run is executed, and looked at again in every case. *)
Ltac cases_of_run :=
  unfold output, trace;
  match goal with
  | |- context [run ?py ?files ?svc ?nb ?entropy] =>
      pattern (run py files svc nb entropy);
      match goal with
      | |- ?P _ =>
          let Q := fresh "Q" in
          let HQ := fresh "HQ" in
          remember P as Q eqn:HQ; execute; subst Q; cbv beta
      end
  end.

(** Equations between answers that the execution leaves behind. *)
Ltac tidy :=
  try match goal with
      | H : Raise _ = Ok _ |- _ => discriminate H
      | H : Ok _ = Raise _ |- _ => discriminate H
      end;
  repeat match goal with
         | H : Ok _ = Ok _ |- _ =>
             let E := fresh in injection H as E; subst
         | H : (_, _) = (_, _) |- _ =>
             let E := fresh in
             let E' := fresh in injection H as E E'; subst
         end.

(** Handles are compared by number: a handle equals itself, and the
    comparison of two different answers is settled by cases. *)
Ltac handles :=
  rewrite ?Nat.eqb_refl; cbn;
  repeat match goal with
         | |- context [Nat.eqb ?a ?b] => destruct (Nat.eqb a b) eqn:?; cbn
         end.

Lemma scan_spec (P : list event -> event -> bool) (l pre : list event) :
  scan P pre l = true ->
  forall (p : list event) (e : event) (q : list event),
    l = (p ++ e :: q)%list -> P (pre ++ p)%list e = true.
Proof.
  revert pre. induction l as [|x l IH]; intros pre H p e q E.
  - destruct p; discriminate.
  - cbn in H. apply andb_true_iff in H. destruct H as [Hx Hl].
    destruct p as [|y p]; cbn in E; injection E as -> ->.
    + now rewrite app_nil_r.
    + specialize (IH _ Hl p e q eq_refl).
      now rewrite <- app_assoc in IH.
Qed.



(** ** The pre-processing cell *)

(** With the three columns it reads, the cell completes: it leaves the old
    objects alone, and makes three new ones - the processed copy, the seed
    and the displayed head. *)
Lemma preprocess_runs py k df_orig lat lon :
  let d := nth df_orig (heap k) empty_frame in
  getitem d "latitude" = Ok lat ->
  getitem d "longitude" = Ok lon ->
  In "neighbourhood" (column_names d) ->
  let lat_long :=
    str_add (str_add_scalar (astype_str py lat) ", ") (astype_str py lon) in
  let processed :=
    mkFrame (nrows d)
      (filter (fun c => negb (mem (fst c) ["latitude"; "longitude"]))
         (set_column "LAT_LONG" lat_long (columns d))) in
  let seed :=
    mkFrame (nrows d)
      (pick (columns processed) ["neighbourhood"; "LAT_LONG"]) in
  preprocess py df_orig k =
  (Ok (S (length (heap k)), S (S (length (heap k)))),
   mkKernel
     (heap k ++ [setitem d "LAT_LONG" lat_long; processed; seed; head seed])
     (rng k) (log k ++ [EDisplay (head seed)])).
Proof.
  intros d Hlat Hlon Hn lat_long processed seed.
  assert (Hdrop : drop (setitem d "LAT_LONG" lat_long)
                    ["latitude"; "longitude"] = Ok processed).
  { apply drop_total.
    intros c [<-|[<-|[]]]; unfold column_names, setitem; cbn [columns];
      apply names_set_column; left;
      [apply (getitem_has _ _ _ Hlat) | apply (getitem_has _ _ _ Hlon)]. }
  assert (Hsel : select processed ["neighbourhood"; "LAT_LONG"] = Ok seed).
  { apply select_total.
    intros c [<-|[<-|[]]]; unfold column_names, processed; cbn [columns];
      apply names_kept; (split; [apply names_set_column |]).
    - now left.
    - cbn. intuition discriminate.
    - now right.
    - cbn. intuition discriminate. }
  unfold preprocess, df_copy, df_getitem, df_setitem, df_drop, df_select,
    df_head, display, bind, load, alloc, store, lift, emit, ret.
  cbn [heap rng log].
  rewrite !nth_alloc. fold d. rewrite Hlat, Hlon. cbn [heap rng log].
  rewrite update_alloc, nth_alloc. fold lat_long. rewrite Hdrop.
  cbn [heap rng log]. rewrite !length_alloc.
  rewrite nth_last by (now rewrite length_alloc).
  rewrite Hsel. cbn [heap rng log].
  rewrite nth_alloc.
  rewrite nth_last by (now rewrite !length_alloc).
  rewrite <- !app_assoc. reflexivity.
Qed.



(** The cell only adds objects: whatever it does, and wherever it stops,
    the objects that were there before are as they were. *)
Lemma preprocess_grows py k df_orig :
  exists new, heap (snd (preprocess py df_orig k)) = heap k ++ new.
Proof.
  unfold preprocess, df_copy, df_getitem, df_setitem, df_drop, df_select,
    df_head, display, bind, load, alloc, store, lift, emit, ret.
  cbn [heap rng log]. rewrite !nth_alloc.
  destruct (getitem _ "latitude"); [|now eexists].
  destruct (getitem _ "longitude"); [|now eexists].
  cbn [heap rng log]. rewrite update_alloc, nth_alloc.
  destruct (drop _ _); cbn [heap rng log snd]; [|now eexists].
  destruct (select _ _); cbn [heap rng log snd];
    rewrite <- ?app_assoc; now eexists.
Qed.

(** The frame that [df_setitem] is applied to does change: assignment to
    a column is a mutation of the shared object. *)
Lemma df_setitem_mutates (k : kernel) (df : loc) (c : string) (s : Series) :
  df < length (heap k) ->
  getitem (nth df (heap (snd (df_setitem df c s k))) empty_frame) c = Ok s.
Proof.
  unfold df_setitem, bind, load, store. cbn [heap snd].
  generalize (heap k). intros h. revert df.
  induction h as [|x h IH]; intros [|df] H; cbn in *; try lia.
  - unfold getitem, setitem. cbn. now rewrite lookup_set_column.
  - apply IH. lia.
Qed.

(** If the cell completes, the frame it was given had the three columns
    it reads. *)
Lemma preprocess_inv py k df_orig p k' :
  preprocess py df_orig k = (Ok p, k') ->
  let d := nth df_orig (heap k) empty_frame in
  exists lat lon,
    getitem d "latitude" = Ok lat /\ getitem d "longitude" = Ok lon /\
    In "neighbourhood" (column_names d).
Proof.
  unfold preprocess, df_copy, df_getitem, df_setitem, df_drop, df_select,
    df_head, display, bind, load, alloc, store, lift, emit, ret.
  cbn [heap rng log]. rewrite !nth_alloc.
  destruct (getitem _ "latitude") as [lat|] eqn:Hlat; [|discriminate].
  destruct (getitem _ "longitude") as [lon|] eqn:Hlon; [|discriminate].
  cbn [heap rng log]. rewrite update_alloc, nth_alloc.
  destruct (drop _ _) as [d1|] eqn:Hdrop; cbn [heap rng log]; [|discriminate].
  rewrite nth_last by (now rewrite length_alloc).
  destruct (select _ _) as [d2|] eqn:Hsel; cbn [heap rng log]; [|discriminate].
  intros _. exists lat, lon. repeat split.
  apply select_ok in Hsel. destruct Hsel as [I _].
  apply drop_ok in Hdrop. destruct Hdrop as [_ ->].
  specialize (I "neighbourhood" (or_introl eq_refl)).
  unfold column_names in I. cbn [columns setitem] in I.
  apply names_kept in I. destruct I as [I _].
  apply names_set_column in I. destruct I as [I|I]; [exact I | discriminate].
Qed.

(** C9: the pre-processing works on a copy. The object [df_orig] is left
    as it was, so after the cell it still has [latitude] and [longitude]
    (and the copy has not), and the plots that follow read the two columns
    of the downloaded file from it. *)
Theorem original_left_unchanged py :
  (forall k df_orig,
      df_orig < length (heap k) ->
      nth df_orig (heap (snd (preprocess py df_orig k))) empty_frame
      = nth df_orig (heap k) empty_frame) /\
  (forall k df_orig df df_seed k',
      df_orig < length (heap k) ->
      preprocess py df_orig k = (Ok (df, df_seed), k') ->
      let orig := nth df_orig (heap k') empty_frame in
      let copy := nth df (heap k') empty_frame in
      orig = nth df_orig (heap k) empty_frame /\
      In "latitude" (column_names orig) /\
      In "longitude" (column_names orig) /\
      In "LAT_LONG" (column_names copy) /\
      ~ In "latitude" (column_names copy) /\
      ~ In "longitude" (column_names copy)) /\
  (forall files svc entropy title x y c,
      In (EPlot (Scatter title x y c))
        (trace py files svc ConditionalGeneration entropy) ->
      exists d,
        files airbnb_url = Ok d /\
        getitem d "longitude" = Ok x /\ getitem d "latitude" = Ok y).
Proof.
  split; [|split].
  - intros k df_orig H.
    destruct (preprocess_grows py k df_orig) as [new ->].
    now apply nth_old.
  - intros k df_orig df df_seed k' H E.
    destruct (preprocess_inv _ _ _ _ _ E) as (lat & lon & Hlat & Hlon & Hn).
    rewrite (preprocess_runs py k df_orig lat lon Hlat Hlon Hn) in E.
    injection E as <- <- <-. cbn [heap].
    rewrite nth_old by assumption.
    split; [reflexivity|].
    split; [apply (getitem_has _ _ _ Hlat)|].
    split; [apply (getitem_has _ _ _ Hlon)|].
    replace (S (length (heap k))) with (length (heap k) + 1) by lia.
    rewrite app_nth2_plus. cbn [nth]. unfold column_names. cbn [columns].
    rewrite !(names_kept ["latitude"; "longitude"]), names_set_column.
    cbn [In].
    split; [split; [now right | intros [E|[E|[]]]; discriminate]|].
    split; intros [_ N]; apply N; auto.
  - intros files svc entropy title x y c. execute.
    all: intros H; repeat (destruct H as [H|H]; try discriminate H);
      try contradiction.
    all: tidy; injection H as <- <- <- <-; eexists; repeat split;
      try reflexivity; eassumption.
Qed.

(** ** The calls of a run *)

(** Every event of every run passes every check. *)
Lemma calls_checked py files svc nb entropy :
  forallb (fun e => forallb (fun check => check e) (call_checks nb))
    (trace py files svc nb entropy) = true.
Proof. destruct nb; cases_of_run; reflexivity. Qed.

Lemma checked py files svc nb entropy (check : event -> bool) :
  In check (call_checks nb) ->
  Forall (fun e => check e = true) (trace py files svc nb entropy).
Proof.
  intros I. apply Forall_forall. intros e He.
  pose proof (calls_checked py files svc nb entropy) as H.
  rewrite forallb_forall in H. specialize (H e He).
  rewrite forallb_forall in H. now apply H.
Qed.

(** How often things happen in a run, and in which order. *)
Lemma calls_counted py files svc nb entropy :
  let t := trace py files svc nb entropy in
  throughout generator_ready t = true /\
  count is_new t <= 1 /\
  count (is_call "generate") t <= 1 /\
  length (outputs t) <= cells_with_output nb /\
  (fst (run py files svc nb entropy) = Ok tt ->
   count (is_call "generate") t
   = length (filter (String.eqb "generate") (methods_of nb)) /\
   length (outputs t) = cells_with_output nb).
Proof.
  destruct nb; cases_of_run; cbn.
  all: handles; repeat split; try discriminate; auto with arith.
Qed.

(** Some event of an explicit log; which one is settled by what follows. *)
Ltac in_log := cbn; (left; reflexivity) + (right; in_log).

Lemma answers_explored py files svc entropy :
  explored_as_frames (trace py files svc ConditionalGeneration entropy).
Proof.
  unfold explored_as_frames, probed. cases_of_run; tidy; cbn.
  all: repeat split; intros o E; try discriminate E.
  all: injection E as <-.
  all: try (eexists _, _; split; [eexists; split; [in_log|reflexivity]|];
            reflexivity).
  all: eexists _, _, _, _; split; [eexists; split; [in_log|reflexivity]|];
    repeat split; eassumption.
Qed.

(** What the notebooks do with the answers of [probe] and [generate]. *)
Lemma answers_used py files svc nb entropy :
  followed
    (fun e post => probe_answer_used nb e post /\ dataset_read_by_data e post)
    (trace py files svc nb entropy).
Proof. destruct nb; cases_of_run; cbn; tidy; repeat split. Qed.

Lemma followed_and (P Q : event -> list event -> Prop) (l : list event) :
  followed (fun e post => P e post /\ Q e post) l ->
  followed P l /\ followed Q l.
Proof.
  induction l as [|e l IH]; cbn; [tauto|].
  intros [[HP HQ] H]. destruct (IH H). tauto.
Qed.

Lemma followed_spec (P : event -> list event -> Prop) (l : list event) :
  followed P l ->
  forall (pre : list event) (e : event) (post : list event),
    l = pre ++ e :: post -> P e post.
Proof.
  induction l as [|x l IH]; intros H pre e post E.
  - destruct pre; discriminate.
  - destruct H as [Hx Hl]. destruct pre as [|y pre]; cbn in E.
    + now injection E as -> ->.
    + injection E as -> ->. now apply (IH Hl pre e post).
Qed.

(** ** The claims about the calls *)

(** C2: in every run of either notebook, the configuration passed to
    [train] is a mapping with exactly the keys [name] and [tables], and
    every table is a mapping with the keys [name] and [data], possibly
    [columns] and [tabular_model_configuration], and no other key. *)
Theorem train_configs_have_the_shape py files svc nb entropy :
  Forall (fun e => train_config_shaped e = true)
    (trace py files svc nb entropy).
Proof. apply checked. cbn. tauto. Qed.

(** C5: every column entry passed to [train] has exactly the keys [name]
    and [model_encoding_type], with one of the four encoding types, and
    every [tabular_model_configuration] sets [max_training_time] only, to
    a positive number. *)
Theorem column_and_model_configuration py files svc nb entropy :
  Forall (fun e => train_configuration_ok e = true)
    (trace py files svc nb entropy).
Proof. apply checked. cbn. tauto. Qed.

(** C3: every [probe] call passes a generator and at most one of [size]
    (an integer) and [seed] (a dataframe), and what it answers is used as
    a dataframe straight away: displayed by the getting-started notebook,
    its [shape] printed by the conditional-generation notebook, which
    goes on to sample it and to select rows and columns of it. *)
Theorem probe_calls py files svc nb entropy :
  Forall (fun e => probe_call_ok e = true) (trace py files svc nb entropy) /\
  followed (probe_answer_used nb) (trace py files svc nb entropy) /\
  explored_as_frames (trace py files svc ConditionalGeneration entropy).
Proof.
  split; [|split].
  - apply checked. cbn. tauto.
  - apply (followed_and _ _ _ (answers_used py files svc nb entropy)).
  - apply answers_explored.
Qed.

(** C4: every [generate] call passes a generator and the size 100000; the
    dataset it answers is only ever the receiver of [data()], whose answer
    is what the notebook displays; no run calls [generate] twice, a
    complete run of the getting-started notebook calls it once and a run
    of the other notebook never. *)
Theorem generate_calls py files svc nb entropy :
  let t := trace py files svc nb entropy in
  Forall (fun e => generate_call_ok e = true) t /\
  Forall (fun e => dataset_only_data e = true) t /\
  followed dataset_read_by_data t /\
  count (is_call "generate") t <= 1 /\
  (fst (run py files svc nb entropy) = Ok tt ->
   count (is_call "generate") t =
   match nb with GettingStarted => 1 | ConditionalGeneration => 0 end).
Proof.
  intros t. repeat split.
  - apply checked. cbn. tauto.
  - apply checked. cbn. tauto.
  - apply (followed_and _ _ _ (answers_used py files svc nb entropy)).
  - apply (calls_counted py files svc nb entropy).
  - intros H.
    destruct (calls_counted py files svc nb entropy) as (_ & _ & _ & _ & C).
    destruct (C H) as [E _]. subst t. rewrite E. now destruct nb.
Qed.

Lemma client_methods_In (l : list event) (m : string) :
  In m (client_methods l) <->
  exists c a, In (ECall c a) l /\ on_client c = true /\ meth c = m.
Proof.
  unfold client_methods. rewrite in_flat_map. split.
  - intros (e & He & H). destruct e; try contradiction.
    destruct (on_client c) eqn:C; [|contradiction].
    destruct H as [<-|[]]. now exists c, answer.
  - intros (c & a & H & C & <-). exists (ECall c a).
    split; [assumption|]. rewrite C. now left.
Qed.

Lemma invoked_methods (nb : notebook) (m : string) :
  invoked nb m <-> In m (methods_of nb).
Proof.
  split.
  - intros (py & files & svc & entropy & H).
    apply client_methods_In in H. destruct H as (c & a & H & C & <-).
    assert (I : In (client_method_in (methods_of nb)) (call_checks nb))
      by (cbn; tauto).
    pose proof (checked py files svc nb entropy _ I) as F.
    rewrite Forall_forall in F. specialize (F _ H). cbn in F.
    rewrite C in F. now apply mem_In.
  - intros H.
    exists Demo.python, Demo.files, (Demo.service (Demo.synthetic 30)), 0%N.
    destruct nb; cbn in H; vm_compute; intuition congruence.
Qed.

(** C6, as the code has it: the methods invoked on the SDK object are
    [train], [probe] and [generate] in the getting-started notebook, and
    [train] and [probe] in the conditional-generation notebook; there is
    no other, and every run creates one SDK object at most, on which all
    of them are invoked. *)
Theorem sdk_methods :
  (forall m, invoked GettingStarted m <->
             In m ["train"; "probe"; "generate"]) /\
  (forall m, invoked ConditionalGeneration m <-> In m ["train"; "probe"]) /\
  (forall py files svc nb entropy,
      let t := trace py files svc nb entropy in
      count is_new t <= 1 /\
      Forall (fun e => first_client e = true) t /\
      Forall (fun e => client_method_ok e = true) t).
Proof.
  split; [|split].
  - intros m. apply (invoked_methods GettingStarted).
  - intros m. apply (invoked_methods ConditionalGeneration).
  - intros py files svc nb entropy t. repeat split.
    + apply (calls_counted py files svc nb entropy).
    + apply checked. cbn. tauto.
    + apply checked. cbn. tauto.
Qed.

(** Counterexample to C6 as it is stated: the conditional-generation
    notebook never calls [generate]. *)
Lemma generate_not_invoked :
  ~ (invoked ConditionalGeneration "generate" <->
     In "generate" ["train"; "probe"; "generate"]).
Proof.
  intros [_ H]. assert (I : invoked ConditionalGeneration "generate")
    by (apply H; cbn; tauto).
  apply invoked_methods in I. cbn in I. intuition discriminate.
Qed.

(** C7: every [train] call passes [start=True] and [wait=True] or
    neither, by keyword or by position, so that with the declared defaults
    the training is started and waited for in every [train] call; and
    whenever a generator is passed to [probe] or [generate], it was
    answered before by a [train] call that waited for the training to
    complete. *)
Theorem training_awaited py files svc nb entropy :
  let t := trace py files svc nb entropy in
  Forall (fun e => train_flags_ok e = true) t /\
  Forall (fun e => train_waits e = true) t /\
  (forall (pre : list event) (e : event) (post : list event),
      t = pre ++ e :: post -> generator_ready pre e = true).
Proof.
  intros t. split; [|split].
  - apply checked. cbn. tauto.
  - apply checked. cbn. tauto.
  - intros pre e post E.
    destruct (calls_counted py files svc nb entropy) as [H _].
    apply (scan_spec _ _ _ H pre e post E).
Qed.

(** ** Seeds *)











(** ** Outputs *)

(** The equations of the run, replayed on a cell that is run alone. *)
Ltac replay :=
  repeat match goal with
         | E : ?x = _ |- context [match ?x with _ => _ end] =>
             rewrite E; cbn
         end.

(** A local output, when a run produces it, is what its cell computes
    from the downloaded file alone. *)
Lemma local_outputs py files svc nb entropy (i : nat) (out : event) :
  is_local nb i = true ->
  output py files svc nb entropy i = Some out ->
  local_output py files nb i = Some out.
Proof.
  revert i out. destruct nb; cases_of_run; tidy; intros i out L.
  all: do 9 (try destruct i as [|i]); try discriminate L; cbn.
  all: try discriminate.
  all: intros [= <-].
  all: unfold local_output, alone, gs_census_url; simp; replay.
  all: reflexivity.
Qed.

Lemma local_independent (nb : notebook) (i : nat) :
  is_local nb i = true -> service_independent nb i.
Proof.
  intros L py files svc1 svc2 e1 e2 a b Ha Hb.
  apply (local_outputs _ _ _ _ _ _ _ L) in Ha.
  apply (local_outputs _ _ _ _ _ _ _ L) in Hb.
  congruence.
Qed.

(** Two runs on the same files whose [i]-th outputs differ. *)
Lemma dependent (nb : notebook) (i : nat) py files svc1 svc2 e1 e2 :
  fingerprint (output py files svc1 nb e1 i) <> None ->
  fingerprint (output py files svc2 nb e2 i) <> None ->
  fingerprint (output py files svc1 nb e1 i)
  <> fingerprint (output py files svc2 nb e2 i) ->
  ~ service_independent nb i.
Proof.
  intros Ha Hb D SI.
  destruct (output py files svc1 nb e1 i) as [a|] eqn:Ea;
    [|now apply Ha].
  destruct (output py files svc2 nb e2 i) as [b|] eqn:Eb;
    [|now apply Hb].
  apply D. f_equal. f_equal. apply (SI _ _ _ _ _ _ _ _ Ea Eb).
Qed.

(** The outputs made from what the service answers do depend on it: the
    two stand-in services disagree on each of them. *)
Lemma remote_outputs_dependent (nb : notebook) (i : nat) :
  i < cells_with_output nb -> is_local nb i = false ->
  ~ service_independent nb i.
Proof.
  intros B L.
  apply (dependent nb i Demo.python Demo.files
           (Demo.service (Demo.synthetic 30)) (Demo.service Demo.wider)
           0%N 0%N).
  all: destruct nb; cbn in B;
    do 10 (try destruct i as [|i]); try discriminate L; try lia.
  all: vm_compute; congruence.
Qed.

Lemma producible_bound (nb : notebook) (i : nat) :
  producible nb i -> i < cells_with_output nb.
Proof.
  intros (py & files & svc & entropy & a & H).
  destruct (calls_counted py files svc nb entropy) as (_ & _ & _ & B & _).
  unfold output in H.
  assert (N : nth_error (outputs (trace py files svc nb entropy)) i <> None)
    by congruence.
  apply nth_error_Some in N. lia.
Qed.

Lemma producible_demo (nb : notebook) (i : nat) :
  i < cells_with_output nb -> producible nb i.
Proof.
  intros B.
  exists Demo.python, Demo.files, (Demo.service (Demo.synthetic 30)), 0%N.
  assert (S : forall o : option event,
             match o with Some _ => true | None => false end = true ->
             exists a, o = Some a).
  { intros [a|] E; [now exists a | discriminate]. }
  apply S.
  destruct nb; cbn in B; do 10 (try destruct i as [|i]); try lia.
  all: vm_compute; reflexivity.
Qed.

(** C1, as the code has it: an output depends on the service exactly when
    it is made from an answer of the service. The displays of the
    downloaded files, the seed of use case 1, the head of the AirBnB seed
    and the plot of the original AirBnB data are computed locally: they
    are the same in every run on the same files, whatever the service
    answers and however the random generator starts. *)
Theorem outputs_and_the_service (nb : notebook) (i : nat) :
  producible nb i ->
  (service_independent nb i <-> is_local nb i = true).
Proof.
  intros P. split.
  - intros SI. destruct (is_local nb i) eqn:L; [reflexivity|].
    exfalso. apply (remote_outputs_dependent nb i); auto.
    now apply producible_bound.
  - apply local_independent.
Qed.

(** Counterexample to C1 as it is stated: the seed of use case 1 (output
    1 of the conditional-generation notebook) and the pre-processed AirBnB
    seed (output 6) are produced by runs, and do not depend on the
    service. *)
Lemma local_computations_deterministic :
  (producible ConditionalGeneration 1 /\
   service_independent ConditionalGeneration 1) /\
  (producible ConditionalGeneration 6 /\
   service_independent ConditionalGeneration 6).
Proof.
  repeat split;
    (apply producible_demo; cbn; lia) || (now apply local_independent).
Qed.

(** ** The notebooks in the demo world *)

Abbreviation demo_trace nb :=
  (trace Demo.python Demo.files (Demo.service (Demo.synthetic 30)) nb 0%N).

Example demo_getting_started :
  fst (run Demo.python Demo.files (Demo.service (Demo.synthetic 30))
         GettingStarted 0%N) = Ok tt /\
  client_methods (demo_trace GettingStarted)
  = ["train"; "probe"; "generate"; "probe"] /\
  map column_names (seeds (demo_trace GettingStarted))
  = [["age"; "native_country"]].
Proof. vm_compute. repeat split. Qed.

Example demo_conditional_generation :
  fst (run Demo.python Demo.files (Demo.service (Demo.synthetic 30))
         ConditionalGeneration 0%N) = Ok tt /\
  client_methods (demo_trace ConditionalGeneration)
  = ["train"; "probe"; "train"; "probe"] /\
  map column_names (seeds (demo_trace ConditionalGeneration))
  = [["sex"; "income"]; ["neighbourhood"; "LAT_LONG"]] /\
  nth_error (outputs (demo_trace ConditionalGeneration)) 6
  = Some (EDisplay
            (mkFrame 2
               [("neighbourhood", [VStr "Midtown"; VStr "Harlem"]);
                ("LAT_LONG",
                 [VStr "40.75, -73.75"; VStr "40.5, -74.0"])])) /\
  nth_error (outputs (demo_trace ConditionalGeneration)) 2
  = Some (EPrint
            "Created synthetic data with 48,842 records and 4 attributes") /\
  length (flat_map column_entries (demo_trace ConditionalGeneration)) = 10.
Proof. vm_compute. repeat split. Qed.

(** When the service is down, the notebook stops at [MostlyAI()]. *)
Example demo_offline :
  run Demo.python Demo.files Demo.offline GettingStarted 0%N
  = (Raise (RemoteError "connection refused"),
     mkKernel [Demo.census] 0%N
       [EInstall "mostlyai"; EReadCsv gs_census_url;
        EDisplay Demo.census]).
Proof. reflexivity. Qed.

(** Without a [latitude] column the pre-processing raises, after it has
    made its copy. *)
Example demo_no_latitude :
  preprocess Demo.python 0 (mkKernel [Demo.census] 0%N [])
  = (Raise (KeyError ["latitude"]),
     mkKernel [Demo.census; Demo.census] 0%N []).
Proof. reflexivity. Qed.

Example format_thousands_48842 : format_thousands 48842 = "48,842".
Proof. reflexivity. Qed.

Example format_thousands_small : format_thousands 15 = "15".
Proof. reflexivity. Qed.

Example format_thousands_million : format_thousands 1000000 = "1,000,000".
Proof. reflexivity. Qed.

(** ** The theorems at work on the demo world *)

Definition demo_kernel : kernel := mkKernel [Demo.airbnb] 0%N [].

Lemma outputs_and_the_service_witness :
  producible ConditionalGeneration 6 /\
  (service_independent ConditionalGeneration 6 <->
   is_local ConditionalGeneration 6 = true).
Proof.
  assert (P : producible ConditionalGeneration 6).
  { exists Demo.python, Demo.files, (Demo.service (Demo.synthetic 30)), 0%N.
    eexists. vm_compute. reflexivity. }
  split; [exact P|].
  apply (outputs_and_the_service ConditionalGeneration 6 P).
Defined.

Lemma generate_calls_witness :
  fst (run Demo.python Demo.files (Demo.service (Demo.synthetic 30))
         GettingStarted 0%N) = Ok tt /\
  count (is_call "generate") (demo_trace GettingStarted) = 1.
Proof.
  assert (H : fst (run Demo.python Demo.files
                     (Demo.service (Demo.synthetic 30))
                     GettingStarted 0%N) = Ok tt)
    by (vm_compute; reflexivity).
  split; [exact H|].
  destruct (generate_calls Demo.python Demo.files
              (Demo.service (Demo.synthetic 30)) GettingStarted 0%N)
    as (_ & _ & _ & _ & C).
  exact (C H).
Defined.

Lemma training_awaited_witness :
  demo_trace GettingStarted
  = firstn 6 (demo_trace GettingStarted) ++
    nth 6 (demo_trace GettingStarted) (EPrint "") ::
    skipn 7 (demo_trace GettingStarted) /\
  generator_ready (firstn 6 (demo_trace GettingStarted))
    (nth 6 (demo_trace GettingStarted) (EPrint "")) = true.
Proof.
  assert (E : demo_trace GettingStarted
              = firstn 6 (demo_trace GettingStarted) ++
                nth 6 (demo_trace GettingStarted) (EPrint "") ::
                skipn 7 (demo_trace GettingStarted))
    by (vm_compute; reflexivity).
  split; [exact E|].
  destruct (training_awaited Demo.python Demo.files
              (Demo.service (Demo.synthetic 30)) GettingStarted 0%N)
    as (_ & _ & R).
  exact (R (firstn 6 (demo_trace GettingStarted))
           (nth 6 (demo_trace GettingStarted) (EPrint ""))
           (skipn 7 (demo_trace GettingStarted)) E).
Defined.


Lemma original_left_unchanged_witness :
  0 < length (heap demo_kernel) /\
  nth 0 (heap (snd (preprocess Demo.python 0 demo_kernel))) empty_frame
  = nth 0 (heap demo_kernel) empty_frame.
Proof.
  assert (L : 0 < length (heap demo_kernel)) by (cbn; lia).
  split; [exact L|].
  apply (proj1 (original_left_unchanged Demo.python) demo_kernel 0 L).
Defined.


(** * More about the code *)

(** ** The pre-processing cell: errors, order, well-formedness *)

Lemma getitem_missing (d : DataFrame) (k : string) :
  ~ In k (column_names d) -> getitem d k = Raise (KeyError [k]).
Proof.
  intros N. unfold getitem.
  destruct (lookup k (columns d)) eqn:E; [|reflexivity].
  exfalso. apply N. apply lookup_In. congruence.
Qed.

Lemma has_getitem (d : DataFrame) (k : string) :
  In k (column_names d) -> exists s, getitem d k = Ok s.
Proof.
  intros H. apply lookup_In in H. unfold getitem.
  destruct (lookup k (columns d)) as [s|]; [now exists s | congruence].
Qed.

Lemma lookup_set_column_other (k k0 : string) (s : Series) cols :
  k0 <> k -> lookup k0 (set_column k s cols) = lookup k0 cols.
Proof.
  intros N. induction cols as [|[k' s'] cols IH]; cbn.
  - apply String.eqb_neq in N. now rewrite N.
  - destruct (String.eqb k k') eqn:E; cbn.
    + apply String.eqb_eq in E. subst k'.
      apply String.eqb_neq in N. now rewrite N.
    + now rewrite IH.
Qed.

(** X1: the cell raises [KeyError] for the first of [latitude],
    [longitude] and [neighbourhood] that the frame lacks, displays nothing
    then, and leaves behind the objects made so far: the copy, and for a
    missing [neighbourhood] also the processed frame. *)
Theorem preprocess_raises py k df_orig :
  let d := nth df_orig (heap k) empty_frame in
  (~ In "latitude" (column_names d) ->
   preprocess py df_orig k
   = (Raise (KeyError ["latitude"]),
      mkKernel (heap k ++ [d]) (rng k) (log k))) /\
  (In "latitude" (column_names d) -> ~ In "longitude" (column_names d) ->
   preprocess py df_orig k
   = (Raise (KeyError ["longitude"]),
      mkKernel (heap k ++ [d]) (rng k) (log k))) /\
  (In "latitude" (column_names d) -> In "longitude" (column_names d) ->
   ~ In "neighbourhood" (column_names d) ->
   exists copy processed,
     preprocess py df_orig k
     = (Raise (KeyError ["neighbourhood"]),
        mkKernel (heap k ++ [copy; processed]) (rng k) (log k))).
Proof.
  intros d.
  unfold preprocess, df_copy, df_getitem, df_setitem, df_drop, df_select,
    df_head, display, bind, load, alloc, store, lift, emit, ret.
  cbn [heap rng log]. rewrite !nth_alloc. fold d.
  split; [|split].
  - intros N. now rewrite (getitem_missing _ _ N).
  - intros Hlat N. apply lookup_In in Hlat. unfold getitem at 1.
    destruct (lookup "latitude" (columns d)); [|congruence].
    now rewrite (getitem_missing _ _ N).
  - intros Hlat Hlon N.
    apply lookup_In in Hlat. apply lookup_In in Hlon.
    unfold getitem.
    destruct (lookup "latitude" (columns d)) as [lat|] eqn:Elat;
      [|congruence].
    destruct (lookup "longitude" (columns d)) as [lon|] eqn:Elon;
      [|congruence].
    cbn [heap rng log]. rewrite update_alloc, nth_alloc.
    rewrite drop_total.
    2: { intros c [<-|[<-|[]]]; unfold column_names, setitem; cbn [columns];
         apply names_set_column; left; apply lookup_In; congruence. }
    cbn [heap rng log]. rewrite nth_last by (now rewrite length_alloc).
    assert (M : missing
                  (mkFrame (nrows (setitem d "LAT_LONG"
                     (str_add (str_add_scalar (astype_str py lat) ", ")
                        (astype_str py lon))))
                     (filter
                        (fun c => negb (mem (fst c)
                                          ["latitude"; "longitude"]))
                        (columns (setitem d "LAT_LONG"
                          (str_add (str_add_scalar (astype_str py lat) ", ")
                             (astype_str py lon))))))
                  ["neighbourhood"; "LAT_LONG"] = ["neighbourhood"]).
    { unfold missing. cbn [filter].
      match goal with
      | |- context [has_column ?f "neighbourhood"] =>
          destruct (has_column f "neighbourhood") eqn:H1
      end.
      - exfalso. apply N. apply has_column_In in H1.
        unfold column_names, setitem in H1. cbn [columns] in H1.
        apply (names_kept ["latitude"; "longitude"]) in H1.
        destruct H1 as [H1 _]. apply names_set_column in H1.
        destruct H1 as [H1|H1]; [exact H1 | discriminate].
      - match goal with
        | |- context [has_column ?f "LAT_LONG"] =>
            destruct (has_column f "LAT_LONG") eqn:H2
        end; [reflexivity|].
        exfalso. apply Bool.not_true_iff_false in H2. apply H2.
        apply has_column_In. unfold column_names, setitem. cbn [columns].
        apply (names_kept ["latitude"; "longitude"]).
        split; [apply names_set_column; now right|].
        cbn. intuition discriminate. }
    unfold select. rewrite M. rewrite <- app_assoc. cbn [app].
    eexists _, _. reflexivity.
Qed.

Lemma lookup_Some_In {A : Type} (k : string) (l : list (string * A)) (a : A) :
  lookup k l = Some a -> In (k, a) l.
Proof.
  induction l as [|[k' a'] l IH]; cbn; [discriminate|].
  destruct (String.eqb k k') eqn:E.
  - apply String.eqb_eq in E. subst. intros [= ->]. now left.
  - intros H. right. now apply IH.
Qed.

Lemma names_set_column_order (k : string) (s : Series) cols :
  map fst (set_column k s cols)
  = if mem k (map fst cols) then map fst cols else map fst cols ++ [k].
Proof.
  induction cols as [|[k' s'] cols IH]; cbn; [reflexivity|].
  destruct (String.eqb k k') eqn:E; cbn.
  - apply String.eqb_eq in E. now subst.
  - rewrite IH. unfold mem. now destruct (existsb _ _).
Qed.

Lemma names_kept_order (ks : list string) (cols : list (string * Series)) :
  map fst (filter (fun c => negb (mem (fst c) ks)) cols)
  = filter (fun n => negb (mem n ks)) (map fst cols).
Proof.
  induction cols as [|[k s] cols IH]; cbn; [reflexivity|].
  destruct (mem k ks); cbn; now rewrite IH.
Qed.

Lemma length_lat_long py (lat lon : Series) :
  length
    (str_add (str_add_scalar (astype_str py lat) ", ") (astype_str py lon))
  = Nat.min (length lat) (length lon).
Proof.
  rewrite length_str_add. unfold str_add_scalar, astype_str.
  now rewrite !length_map.
Qed.

Lemma getitem_length (d : DataFrame) (k : string) (s : Series) :
  well_formed d -> getitem d k = Ok s -> length s = nrows d.
Proof.
  intros [_ F] H. unfold getitem in H.
  destruct (lookup k (columns d)) as [s'|] eqn:E; [|discriminate].
  injection H as ->. apply lookup_Some_In in E.
  rewrite Forall_forall in F. apply (F _ E).
Qed.

Lemma Forall_set_column (P : string * Series -> Prop) k s cols :
  Forall P cols -> P (k, s) -> Forall P (set_column k s cols).
Proof.
  intros F H. induction F as [|[k' s'] cols Hx F IH]; cbn.
  - now constructor.
  - destruct (String.eqb k k'); constructor; auto.
Qed.

Lemma Forall_kept {A : Type} (P : A -> Prop) (f : A -> bool) (l : list A) :
  Forall P l -> Forall P (filter f l).
Proof.
  rewrite !Forall_forall. intros F x H. apply filter_In in H. now apply F.
Qed.

Lemma NoDup_snoc {A : Type} (l : list A) (a : A) :
  NoDup l -> ~ In a l -> NoDup (l ++ [a]).
Proof.
  induction 1 as [|x l Hx N IH]; cbn; intros H.
  - repeat constructor. intros [].
  - constructor.
    + rewrite in_app_iff. cbn. intuition congruence.
    + apply IH. intuition.
Qed.

(** The frames the cell makes, when it completes. *)
Lemma preprocess_result py k df_orig lat lon nbh :
  let d := nth df_orig (heap k) empty_frame in
  getitem d "latitude" = Ok lat ->
  getitem d "longitude" = Ok lon ->
  getitem d "neighbourhood" = Ok nbh ->
  let lat_long :=
    str_add (str_add_scalar (astype_str py lat) ", ") (astype_str py lon) in
  let processed :=
    mkFrame (nrows d)
      (filter (fun c => negb (mem (fst c) ["latitude"; "longitude"]))
         (set_column "LAT_LONG" lat_long (columns d))) in
  let seed :=
    mkFrame (nrows d) [("neighbourhood", nbh); ("LAT_LONG", lat_long)] in
  exists df df_seed k',
    preprocess py df_orig k = (Ok (df, df_seed), k') /\
    nth df (heap k') empty_frame = processed /\
    nth df_seed (heap k') empty_frame = seed /\
    log k' = log k ++ [EDisplay (head seed)].
Proof.
  intros d Hlat Hlon Hn lat_long processed seed.
  pose proof (preprocess_runs py k df_orig lat lon Hlat Hlon
                (getitem_has _ _ _ Hn)) as R.
  cbv zeta in R. fold d lat_long processed in R.
  assert (Hpick : pick (columns processed) ["neighbourhood"; "LAT_LONG"]
              = [("neighbourhood", nbh); ("LAT_LONG", lat_long)]).
  { unfold processed. cbn [columns pick].
    rewrite !(lookup_kept ["latitude"; "longitude"]) by reflexivity.
    rewrite lookup_set_column.
    rewrite lookup_set_column_other by discriminate.
    unfold getitem in Hn.
    destruct (lookup "neighbourhood" (columns d)); [|discriminate].
    now injection Hn as ->. }
  rewrite Hpick in R. fold seed in R.
  eexists _, _, _. split; [exact R|]. cbn [heap log].
  repeat split.
  - replace (S (length (heap k))) with (length (heap k) + 1) by lia.
    now rewrite app_nth2_plus.
  - replace (S (S (length (heap k)))) with (length (heap k) + 2) by lia.
    now rewrite app_nth2_plus.
Qed.

(** X2: the cell keeps frames well formed: for a well-formed frame, the
    processed frame and the seed are well formed and have as many rows as
    the original. *)
Theorem preprocess_well_formed py k df_orig :
  let d := nth df_orig (heap k) empty_frame in
  well_formed d ->
  In "latitude" (column_names d) ->
  In "longitude" (column_names d) ->
  In "neighbourhood" (column_names d) ->
  exists df df_seed k',
    preprocess py df_orig k = (Ok (df, df_seed), k') /\
    well_formed (nth df (heap k') empty_frame) /\
    well_formed (nth df_seed (heap k') empty_frame) /\
    nrows (nth df (heap k') empty_frame) = nrows d /\
    nrows (nth df_seed (heap k') empty_frame) = nrows d.
Proof.
  intros d W Ilat Ilon In_.
  destruct (has_getitem d "latitude" Ilat) as [lat Hlat].
  destruct (has_getitem d "longitude" Ilon) as [lon Hlon].
  destruct (has_getitem d "neighbourhood" In_) as [nbh Hn].
  destruct (preprocess_result py k df_orig lat lon nbh Hlat Hlon Hn)
    as (df & df_seed & k' & E & Hdf & Hseed & _).
  exists df, df_seed, k'. split; [exact E|]. rewrite Hdf, Hseed.
  assert (L : length
                (str_add (str_add_scalar (astype_str py lat) ", ")
                   (astype_str py lon)) = nrows d).
  { rewrite length_lat_long.
    rewrite (getitem_length d _ _ W Hlat), (getitem_length d _ _ W Hlon).
    apply Nat.min_id. }
  destruct W as [N F].
  repeat split; cbn [nrows columns].
  - unfold column_names. cbn [columns].
    rewrite names_kept_order. apply NoDup_filter.
    rewrite names_set_column_order. fold d.
    destruct (mem "LAT_LONG" (map fst (columns d))) eqn:M; [exact N|].
    apply NoDup_snoc; [exact N|].
    rewrite <- mem_In. now rewrite M.
  - apply Forall_kept. apply Forall_set_column; [exact F | exact L].
  - unfold column_names. cbn. repeat constructor; cbn; intuition discriminate.
  - repeat constructor; cbn [snd]; [|exact L].
    apply (getitem_length d _ _ (conj N F) Hn).
Qed.


(** X4: the processed frame keeps the order of the original columns,
    without [latitude] and [longitude]; [LAT_LONG] comes last, unless the
    original had a column of that name, which is then overwritten in
    place. *)
Theorem processed_column_order py k df_orig :
  let d := nth df_orig (heap k) empty_frame in
  In "latitude" (column_names d) ->
  In "longitude" (column_names d) ->
  In "neighbourhood" (column_names d) ->
  exists df df_seed k',
    preprocess py df_orig k = (Ok (df, df_seed), k') /\
    column_names (nth df (heap k') empty_frame)
    = filter (fun n => negb (mem n ["latitude"; "longitude"]))
        (column_names d) ++
      (if mem "LAT_LONG" (column_names d) then [] else ["LAT_LONG"]).
Proof.
  intros d Ilat Ilon In_.
  destruct (has_getitem d "latitude" Ilat) as [lat Hlat].
  destruct (has_getitem d "longitude" Ilon) as [lon Hlon].
  destruct (has_getitem d "neighbourhood" In_) as [nbh Hn].
  destruct (preprocess_result py k df_orig lat lon nbh Hlat Hlon Hn)
    as (df & df_seed & k' & E & Hdf & _).
  exists df, df_seed, k'. split; [exact E|]. rewrite Hdf.
  unfold column_names. cbn [columns]. fold d.
  rewrite names_kept_order, names_set_column_order.
  destruct (mem "LAT_LONG" (map fst (columns d))).
  - now rewrite app_nil_r.
  - rewrite filter_app. reflexivity.
Qed.

(** ** The thousands separators of the printed shape *)

Lemma no_comma_in_numeral (u : Decimal.uint) :
  Forall (fun c => is_comma c = false)
    (list_ascii_of_string (NilEmpty.string_of_uint u)).
Proof. induction u; cbn; constructor; auto. Qed.

Lemma no_comma_in_digits (n : nat) :
  Forall (fun c => is_comma c = false) (digits_of n).
Proof.
  unfold digits_of, NilZero.string_of_uint.
  destruct (Nat.to_uint n) eqn:E; try apply no_comma_in_numeral.
  repeat constructor.
Qed.

Lemma group3_strip (ds : list ascii) :
  Forall (fun c => is_comma c = false) ds ->
  filter (fun c => negb (is_comma c)) (group3 ds) = ds.
Proof.
  induction 1 as [|d ds Hd F IH]; [reflexivity|].
  cbn [group3].
  destruct (negb (length ds =? 0) && (length ds mod 3 =? 0))%nat;
    cbn [filter]; rewrite Hd; cbn [negb filter]; try rewrite IH;
    try reflexivity.
Qed.

Lemma group3_commas (ds : list ascii) :
  Forall (fun c => is_comma c = false) ds ->
  forall a b : list ascii,
    group3 ds = a ++ ","%char :: b ->
    let m := length (filter (fun c => negb (is_comma c)) b) in
    0 < m /\ m mod 3 = 0.
Proof.
  induction 1 as [|d ds Hd F IH]; intros a b E.
  - destruct a; discriminate.
  - cbn [group3] in E. destruct a as [|x a]; cbn [app] in E.
    + injection E as E _. subst d. discriminate Hd.
    + injection E as _ E.
      match type of E with
      | context [if ?c then _ else _] => destruct c eqn:C
      end.
      * destruct a as [|y a]; cbn [app] in E.
        -- injection E as <-. cbn zeta. rewrite (group3_strip _ F).
           apply andb_true_iff in C. destruct C as [C1 C2].
           apply negb_true_iff in C1.
           apply Nat.eqb_neq in C1. apply Nat.eqb_eq in C2.
           split; [lia | exact C2].
        -- injection E as _ E. now apply (IH a b).
      * now apply (IH a b).
Qed.

(** X5: the f-string format [{n:,}]: without its commas the text is the
    decimal numeral of [n], and every comma is followed by a positive
    multiple of three digits. *)
Theorem format_thousands_groups (n : nat) :
  filter (fun c => negb (is_comma c))
    (list_ascii_of_string (format_thousands n))
  = digits_of n /\
  forall a b : list ascii,
    list_ascii_of_string (format_thousands n) = a ++ ","%char :: b ->
    let m := length (filter (fun c => negb (is_comma c)) b) in
    0 < m /\ m mod 3 = 0.
Proof.
  unfold format_thousands. rewrite list_ascii_of_string_of_list_ascii.
  split.
  - apply group3_strip, no_comma_in_digits.
  - apply group3_commas, no_comma_in_digits.
Qed.

(** ** Whole runs: where they stop, and what they show *)

Lemma getattr_missing (d : DataFrame) (k : string) :
  ~ In k (column_names d) -> getattr d k = Raise (AttributeError k).
Proof.
  intros N. unfold getattr.
  destruct (lookup k (columns d)) eqn:E; [|reflexivity].
  exfalso. apply N. apply lookup_In. congruence.
Qed.


Lemma getting_started_seed :
  frame_of_dict
    [("age", repeat (VInt 24) 1000);
     ("native_country", repeat (VStr "Mexico") 1000)]
  = Ok (mkFrame 1000
          [("age", repeat (VInt 24) 1000);
           ("native_country", repeat (VStr "Mexico") 1000)]).
Proof. vm_compute. reflexivity. Qed.

(** A call of a reliable service did not raise. *)
Ltac remote_ok R :=
  destruct R as (R1 & R2 & R3 & R4 & R5 & R6);
  try match goal with
      | H : sdk_connect _ _ = Raise _ |- _ => exfalso; exact (R1 _ _ H)
      | H : sdk_train _ _ _ = Raise _ |- _ => exfalso; exact (R2 _ _ _ H)
      | H : sdk_probe _ _ _ = Raise _ |- _ => exfalso; exact (R3 _ _ _ H)
      | H : sdk_generate _ _ _ = Raise _ |- _ => exfalso; exact (R4 _ _ _ H)
      | H : sdk_data _ _ _ = Raise _ |- _ => exfalso; exact (R5 _ _ _ H)
      | H : sdk_reports _ _ _ = Raise _ |- _ => exfalso; exact (R6 _ _ _ H)
      end.

(** The equations of the run against what is known beforehand. *)
Ltac known :=
  repeat match goal with
         | H : ?x = _, E : ?x = _ |- _ =>
             rewrite H in E;
             first [discriminate E | injection E as E; try subst]
         end.

(** X6: the getting-started notebook has no failure of its own: when the
    download succeeds and the service is reliable, the run completes, with
    its four outputs and its four calls on the SDK object, and the seed it
    probes with is the frame of a thousand 24-year-old Mexicans. *)
Theorem getting_started_completes py files svc entropy d :
  files gs_census_url = Ok d ->
  reliable svc ->
  let t := trace py files svc GettingStarted entropy in
  fst (run py files svc GettingStarted entropy) = Ok tt /\
  length (outputs t) = 4 /\
  client_methods t = ["train"; "probe"; "generate"; "probe"] /\
  trained_frames t = [d] /\
  seeds t
  = [mkFrame 1000
       [("age", repeat (VInt 24) 1000);
        ("native_country", repeat (VStr "Mexico") 1000)]].
Proof.
  unfold gs_census_url. intros F R.
  pose proof getting_started_seed as S.
  cases_of_run; tidy; known; remote_ok R.
  cbn. repeat split.
Qed.

(** X7: a census file without an [income] column is found out late: the
    conditional-generation notebook displays the file, creates the SDK
    object and trains a generator on it, and only then - once the
    generator is there - raises [AttributeError], with numpy's generator
    already re-seeded. It never probes. *)
Theorem missing_income_found_after_training py files svc entropy d :
  files census_url = Ok d ->
  ~ In "income" (column_names d) ->
  let r := run py files svc ConditionalGeneration entropy in
  let t := trace py files svc ConditionalGeneration entropy in
  outputs t = [EDisplay d] /\
  seeds t = [] /\
  (forall c g,
      In (ECall c (Ok (PGenerator g))) t ->
      fst r = Raise (AttributeError "income") /\
      trained_frames t = [d] /\
      rng (snd r) = np_random_seed py 1).
Proof.
  intros F N. apply getattr_missing in N.
  cases_of_run; tidy; known; cbn.
  all: repeat split; try (intros c g H; exfalso);
    try (intros c g [H|[H|[H|[H|[H|[]]]]]]; discriminate H).
  all: repeat (destruct H as [H|H]; try discriminate H); try contradiction.
Qed.

(** X8: when the first probe answers fewer than ten rows, the notebook
    still prints the shape of the answer, and then stops at
    [syn.sample(n=10)] with a [ValueError]: three outputs, no plot, and
    use case 2 is not reached. *)
Theorem sample_larger_than_answer py files svc entropy syn :
  let r := run py files svc ConditionalGeneration entropy in
  let t := trace py files svc ConditionalGeneration entropy in
  nth_error (answers t) 0 = Some syn ->
  nrows syn < 10 ->
  fst r
  = Raise (ValueError
      "Cannot take a larger sample than population when 'replace=False'") /\
  nth_error (outputs t) 2 = Some (EPrint (created_message (shape syn))) /\
  length (outputs t) = 3 /\
  client_methods t = ["train"; "probe"].
Proof.
  cases_of_run; tidy; cbn.
  all: intros A L; try discriminate A; injection A as ->.
  all: try (apply Nat.ltb_ge in Heqb; lia).
  all: repeat split.
Qed.

(** X9: the sample the notebook shows is drawn with numpy's global
    generator, which the seed cell has re-seeded: in a fresh run the "random"
    rows are the same every time, given the census file and the number of
    rows of the answer. *)
Theorem sample_is_reproducible py files svc entropy d syn o :
  let t := trace py files svc ConditionalGeneration entropy in
  files census_url = Ok d ->
  nth_error (answers t) 0 = Some syn ->
  nth_error (outputs t) 3 = Some o ->
  10 <= nrows syn /\
  o = EDisplay
        (take syn
           (fst (sample_indices py (state_after_seed py d) (nrows syn) 10))).
Proof.
  intros t F. subst t. revert F.
  cases_of_run; tidy; cbn.
  all: intros F A O; try discriminate O; try discriminate A.
  all: injection A as ->; injection O as <-; injection F as <-.
  all: apply Nat.ltb_ge in Heqb; split; [exact Heqb|].
  all: unfold state_after_seed; simp; replay.
  all: match goal with
       | H : sample_indices _ _ _ _ = _ |- _ => now rewrite H
       end.
Qed.

(** X10: what is displayed is what is sent: the seed the first probe of
    the conditional-generation notebook carries is the frame displayed
    just before, and the first five rows of the seed the second probe
    carries are what the pre-processing cell displayed. *)
Theorem displayed_seed_is_sent py files svc entropy :
  let t := trace py files svc ConditionalGeneration entropy in
  (forall s, nth_error (seeds t) 0 = Some s ->
             nth_error (outputs t) 1 = Some (EDisplay s)) /\
  (forall s, nth_error (seeds t) 1 = Some s ->
             nth_error (outputs t) 6 = Some (EDisplay (head s))).
Proof.
  cases_of_run; tidy; cbn.
  all: split; intros s E; try discriminate E; now injection E as ->.
Qed.

(** X11: the frames uploaded for training. The census generators are
    trained on the downloaded file as it is. The AirBnB generator is
    trained on the pre-processed frame: as many rows as the downloaded
    file, with [LAT_LONG] and without [latitude] and [longitude]; and it is
    the frame the seed of the second probe is selected from. *)
Theorem training_data py files svc nb entropy d :
  let t := trace py files svc nb entropy in
  In d (trained_frames t) ->
  match nb with
  | GettingStarted => files gs_census_url = Ok d
  | ConditionalGeneration =>
      files census_url = Ok d \/
      exists orig,
        files airbnb_url = Ok orig /\ nrows d = nrows orig /\
        In "LAT_LONG" (column_names d) /\
        ~ In "latitude" (column_names d) /\
        ~ In "longitude" (column_names d) /\
        forall s, nth_error (seeds t) 1 = Some s ->
                  select d ["neighbourhood"; "LAT_LONG"] = Ok s
  end.
Proof.
  unfold gs_census_url.
  destruct nb; cases_of_run; tidy; cbn.
  all: intros H; repeat (destruct H as [H|H]); try contradiction; subst.
  all: try reflexivity; try assumption;
    try (left; reflexivity); try (left; assumption).
  all: right; eexists; split; [first [eassumption | reflexivity]|].
  all: match goal with
       | H : drop _ _ = Ok _ |- _ =>
           apply drop_ok in H; destruct H as [_ ->]
       end.
  all: unfold column_names, setitem; cbn [nrows columns].
  all: rewrite !(names_kept ["latitude"; "longitude"]), names_set_column.
  all: split; [reflexivity|]; split; [split; [now right|]|].
  all: try (cbn; intuition discriminate).
  all: split; [intros [_ N]; apply N; cbn; tauto|].
  all: split; [intros [_ N]; apply N; cbn; tauto|].
  all: intros s E; try discriminate E; injection E as <-; assumption.
Qed.


(** Once the second probe has answered, the coordinates are there, and
    the run ends as the two plots do. *)
Lemma plots_outcome py files svc entropy orig partial :
  let r := run py files svc ConditionalGeneration entropy in
  let t := trace py files svc ConditionalGeneration entropy in
  files airbnb_url = Ok orig ->
  nth_error (answers t) 1 = Some partial ->
  exists x y,
    getitem orig "longitude" = Ok x /\ getitem orig "latitude" = Ok y /\
    match scatter_outcome py x y orig, scatter_outcome py x y partial with
    | Raise e, _ => fst r = Raise e /\ length (outputs t) = 8
    | Ok _, Raise e => fst r = Raise e /\ length (outputs t) = 9
    | Ok _, Ok _ => fst r = Ok tt /\ length (outputs t) = 10
    end.
Proof.
  intros r t F. subst r t. revert F. unfold scatter_outcome.
  cases_of_run; tidy; cbn.
  all: intros F A; try discriminate A; injection A as ->; injection F as <-.
  all: match goal with
       | X : getitem _ "longitude" = Ok _, Y : getitem _ "latitude" = Ok _
         |- _ => eexists _, _; split; [exact X|]; split; [exact Y|]
       end.
  all: replay; repeat split.
Qed.

(** X13: once the second probe has answered, the two plots decide how the
    run ends. The coordinates are there - they are read from [df_orig],
    which still has them - so each plot ends as its prices have it: with
    [AttributeError] when the frame has no [price] column, with the
    library's exception when it refuses the prices as colours of the
    points, and well otherwise. The run stops at the first plot that
    fails, having shown eight or nine outputs, and completes with ten when
    both are drawn. *)
Theorem plots_need_prices py files svc entropy orig partial :
  let r := run py files svc ConditionalGeneration entropy in
  let t := trace py files svc ConditionalGeneration entropy in
  files airbnb_url = Ok orig ->
  nth_error (answers t) 1 = Some partial ->
  exists x y,
    getitem orig "longitude" = Ok x /\ getitem orig "latitude" = Ok y /\
    match scatter_outcome py x y orig, scatter_outcome py x y partial with
    | Raise e, _ => fst r = Raise e /\ length (outputs t) = 8
    | Ok _, Raise e => fst r = Raise e /\ length (outputs t) = 9
    | Ok _, Ok _ => fst r = Ok tt /\ length (outputs t) = 10
    end /\
    (~ In "price" (column_names orig) ->
     fst r = Raise (AttributeError "price") /\ length (outputs t) = 8) /\
    (scatter_outcome py x y orig = Ok tt ->
     ~ In "price" (column_names partial) ->
     fst r = Raise (AttributeError "price") /\ length (outputs t) = 9).
Proof.
  intros r t F A.
  destruct (plots_outcome py files svc entropy orig partial F A)
    as (x & y & X & Y & P).
  fold r t in P.
  exists x, y. split; [exact X|]. split; [exact Y|]. split; [exact P|].
  split.
  - intros N. unfold scatter_outcome in P.
    rewrite (getattr_missing _ _ N) in P. exact P.
  - intros S N. rewrite S in P. unfold scatter_outcome in P.
    rewrite (getattr_missing _ _ N) in P. exact P.
Qed.

Lemma keep_rows_where (by_ s : Series) (x : string) :
  keep (eq_str by_ x) s = rows_where by_ x s.
Proof.
  unfold rows_where, eq_str.
  revert s. induction by_ as [|v by_ IH]; intros [|y s]; try reflexivity.
  - cbn [map keep]. now destruct (match v with VStr _ => _ | _ => _ end).
  - cbn [map keep combine filter fst].
    destruct (match v with VStr _ => _ | _ => _ end);
      cbn [map snd]; now rewrite IH.
Qed.

Lemma lookup_where (mask : list bool) (k : string) cols :
  lookup k (map (fun c : string * Series => (fst c, keep mask (snd c))) cols)
  = option_map (keep mask) (lookup k cols).
Proof.
  induction cols as [|[k' s] cols IH]; cbn; [reflexivity|].
  now destruct (String.eqb k k').
Qed.

Lemma getattr_where (d : DataFrame) (by_ s : Series) (x k : string) :
  getattr (where_ d (eq_str by_ x)) k = Ok s ->
  exists s0, getattr d k = Ok s0 /\ s = rows_where by_ x s0.
Proof.
  unfold getattr, where_. cbn [columns]. rewrite lookup_where.
  destruct (lookup k (columns d)) as [s0|]; [|discriminate].
  cbn. intros [= <-]. exists s0. split; [reflexivity|].
  apply keep_rows_where.
Qed.

(** X14: the two curves of the age plot are the ages of exactly those
    rows whose [sex] is the string [Female]: of the downloaded census file
    for the original curve, of the answer of the first probe for the
    synthetic one. *)
Theorem female_age_curves py files svc entropy d syn o :
  let t := trace py files svc ConditionalGeneration entropy in
  files census_url = Ok d ->
  nth_error (answers t) 0 = Some syn ->
  nth_error (outputs t) 4 = Some o ->
  exists sex age sex' age',
    getattr d "sex" = Ok sex /\ getattr d "age" = Ok age /\
    getattr syn "sex" = Ok sex' /\ getattr syn "age" = Ok age' /\
    o = EPlot
          (Kde "Female Age Distribution" "Age"
             [("original", rows_where sex "Female" age);
              ("synthetic", rows_where sex' "Female" age')]).
Proof.
  intros t F. subst t. revert F.
  cases_of_run; tidy; cbn.
  all: intros F A O; try discriminate O; try discriminate A.
  all: injection A as ->; injection O as <-; injection F as <-.
  all: repeat match goal with
              | H : getattr (where_ _ _) _ = Ok _ |- _ =>
                  apply getattr_where in H; destruct H as (? & ? & ->)
              end.
  all: eexists _, _, _, _; repeat split; eassumption.
Qed.

(** ** What the conditional-generation notebook needs to run through *)








(** ** The demo world, again *)

Abbreviation ten_trace nb :=
  (trace Demo.python Demo.files (Demo.service Demo.ten_rows) nb 0%N).

Lemma demo_reliable (sampling : call -> DataFrame) :
  reliable (Demo.service sampling).
Proof. repeat split; intros; discriminate. Qed.





Lemma demo_airbnb_well_formed : well_formed Demo.airbnb.
Proof.
  split.
  - repeat (constructor; [cbn; intuition discriminate|]). constructor.
  - repeat constructor.
Qed.



Lemma preprocess_raises_witness :
  fst (preprocess Demo.python 0 (mkKernel [Demo.census] 0%N []))
  = Raise (KeyError ["latitude"]) /\
  fst (preprocess Demo.python 0 no_neighbourhood)
  = Raise (KeyError ["neighbourhood"]).
Proof.
  destruct (preprocess_raises Demo.python (mkKernel [Demo.census] 0%N []) 0)
    as (R1 & _).
  destruct (preprocess_raises Demo.python no_neighbourhood 0)
    as (_ & _ & R3).
  split.
  - rewrite R1; [reflexivity|]. vm_compute. intuition discriminate.
  - destruct R3 as (copy & processed & ->); [| | |reflexivity];
      vm_compute; intuition discriminate.
Defined.

Lemma preprocess_well_formed_witness :
  exists df df_seed k',
    preprocess Demo.python 0 demo_kernel = (Ok (df, df_seed), k') /\
    well_formed (nth df (heap k') empty_frame) /\
    well_formed (nth df_seed (heap k') empty_frame).
Proof.
  destruct (preprocess_well_formed Demo.python demo_kernel 0
              demo_airbnb_well_formed)
    as (df & df_seed & k' & E & W & W' & _);
    try (vm_compute; tauto).
  now exists df, df_seed, k'.
Defined.


Lemma processed_column_order_witness :
  exists df df_seed k',
    preprocess Demo.python 0 demo_kernel = (Ok (df, df_seed), k') /\
    column_names (nth df (heap k') empty_frame)
    = ["neighbourhood_group"; "neighbourhood"; "room_type"; "price";
       "LAT_LONG"].
Proof.
  destruct (processed_column_order Demo.python demo_kernel 0)
    as (df & df_seed & k' & E & C); try (vm_compute; tauto).
  exists df, df_seed, k'. split; [exact E | exact C].
Defined.

Lemma format_thousands_groups_witness :
  list_ascii_of_string (format_thousands 48842)
  = ["4"; "8"]%char ++ ","%char :: ["8"; "4"; "2"]%char /\
  0 < 3 /\ 3 mod 3 = 0.
Proof.
  assert (E : list_ascii_of_string (format_thousands 48842)
              = ["4"; "8"]%char ++ ","%char :: ["8"; "4"; "2"]%char)
    by (vm_compute; reflexivity).
  split; [exact E|].
  exact (proj2 (format_thousands_groups 48842)
           ["4"; "8"]%char ["8"; "4"; "2"]%char E).
Defined.

Lemma getting_started_completes_witness :
  Demo.files gs_census_url = Ok Demo.census /\
  fst (run Demo.python Demo.files (Demo.service (Demo.synthetic 30))
         GettingStarted 0%N) = Ok tt.
Proof.
  assert (F : Demo.files gs_census_url = Ok Demo.census)
    by (vm_compute; reflexivity).
  split; [exact F|].
  apply (getting_started_completes Demo.python Demo.files
           (Demo.service (Demo.synthetic 30)) 0%N Demo.census F
           (demo_reliable (Demo.synthetic 30))).
Defined.

Lemma missing_income_found_after_training_witness :
  outputs (trace Demo.python no_income (Demo.service Demo.ten_rows)
             ConditionalGeneration 0%N)
  = [EDisplay (mkFrame 1 [("age", [VInt 39])])] /\
  fst (run Demo.python no_income (Demo.service Demo.ten_rows)
         ConditionalGeneration 0%N)
  = Raise (AttributeError "income").
Proof.
  assert (N : ~ In "income" (column_names (mkFrame 1 [("age", [VInt 39])])))
    by (vm_compute; intuition discriminate).
  destruct (missing_income_found_after_training Demo.python no_income
              (Demo.service Demo.ten_rows) 0%N
              (mkFrame 1 [("age", [VInt 39])]) eq_refl N)
    as (O & _ & T).
  split; [exact O|].
  eapply T. vm_compute. do 4 right. left. reflexivity.
Defined.

Lemma sample_larger_than_answer_witness :
  nrows Demo.census < 10 /\
  length
    (outputs (trace Demo.python Demo.files
                (Demo.service (fun _ => Demo.census))
                ConditionalGeneration 0%N)) = 3.
Proof.
  assert (L : nrows Demo.census < 10) by (cbn; lia).
  split; [exact L|].
  apply (sample_larger_than_answer Demo.python Demo.files
           (Demo.service (fun _ => Demo.census)) 0%N Demo.census);
    [vm_compute; reflexivity | exact L].
Defined.

Lemma sample_is_reproducible_witness :
  nth_error (answers (ten_trace ConditionalGeneration)) 0
  = Some (Demo.ten_rows any_call) /\
  10 <= nrows (Demo.ten_rows any_call).
Proof.
  assert (A : nth_error (answers (ten_trace ConditionalGeneration)) 0
              = Some (Demo.ten_rows any_call))
    by (vm_compute; reflexivity).
  split; [exact A|].
  apply (sample_is_reproducible Demo.python Demo.files
           (Demo.service Demo.ten_rows) 0%N Demo.census
           (Demo.ten_rows any_call)
           (EDisplay (take (Demo.ten_rows any_call) (seq 0 10))));
    [vm_compute; reflexivity | exact A | vm_compute; reflexivity].
Defined.

Lemma displayed_seed_is_sent_witness :
  nth_error (seeds (ten_trace ConditionalGeneration)) 1
  = Some (mkFrame 2
            [("neighbourhood", [VStr "Midtown"; VStr "Harlem"]);
             ("LAT_LONG", [VStr "40.75, -73.75"; VStr "40.5, -74.0"])]) /\
  nth_error (outputs (ten_trace ConditionalGeneration)) 6
  = Some (EDisplay
            (head
               (mkFrame 2
                  [("neighbourhood", [VStr "Midtown"; VStr "Harlem"]);
                   ("LAT_LONG",
                    [VStr "40.75, -73.75"; VStr "40.5, -74.0"])]))).
Proof.
  assert (S : nth_error (seeds (ten_trace ConditionalGeneration)) 1
              = Some (mkFrame 2
                        [("neighbourhood", [VStr "Midtown"; VStr "Harlem"]);
                         ("LAT_LONG",
                          [VStr "40.75, -73.75"; VStr "40.5, -74.0"])]))
    by (vm_compute; reflexivity).
  split; [exact S|].
  exact (proj2 (displayed_seed_is_sent Demo.python Demo.files
                  (Demo.service Demo.ten_rows) 0%N) _ S).
Defined.

Lemma training_data_witness :
  In Demo.census (trained_frames (ten_trace GettingStarted)) /\
  Demo.files gs_census_url = Ok Demo.census.
Proof.
  assert (I : In Demo.census (trained_frames (ten_trace GettingStarted)))
    by (vm_compute; left; reflexivity).
  split; [exact I|].
  exact (training_data Demo.python Demo.files (Demo.service Demo.ten_rows)
           GettingStarted 0%N Demo.census I).
Defined.

Lemma plots_need_prices_witness :
  nth_error (answers (demo_trace ConditionalGeneration)) 1
  = Some demo_partial /\
  fst (run Demo.python Demo.files (Demo.service (Demo.synthetic 30))
         ConditionalGeneration 0%N) = Ok tt /\
  length (outputs (demo_trace ConditionalGeneration)) = 10.
Proof.
  assert (A : nth_error (answers (demo_trace ConditionalGeneration)) 1
              = Some demo_partial)
    by (vm_compute; reflexivity).
  split; [exact A|].
  destruct (plots_need_prices Demo.python Demo.files
              (Demo.service (Demo.synthetic 30)) 0%N Demo.airbnb
              demo_partial eq_refl A) as (x & y & X & Y & P & _).
  assert (X' : getitem Demo.airbnb "longitude" = Ok [Demo.lon1; Demo.lon2])
    by reflexivity.
  assert (Y' : getitem Demo.airbnb "latitude" = Ok [Demo.lat1; Demo.lat2])
    by reflexivity.
  rewrite X' in X. rewrite Y' in Y. injection X as <-. injection Y as <-.
  assert (S1 : scatter_outcome Demo.python [Demo.lon1; Demo.lon2]
                 [Demo.lat1; Demo.lat2] Demo.airbnb = Ok tt)
    by reflexivity.
  assert (S2 : scatter_outcome Demo.python [Demo.lon1; Demo.lon2]
                 [Demo.lat1; Demo.lat2] demo_partial = Ok tt)
    by reflexivity.
  rewrite S1, S2 in P. exact P.
Defined.

Lemma female_age_curves_witness :
  nth_error (outputs (ten_trace ConditionalGeneration)) 4
  = Some (EPlot
            (Kde "Female Age Distribution" "Age"
               [("original", [VInt 50; VInt 38]);
                ("synthetic",
                 [VInt 61; VInt 80; VInt 68; VInt 61; VInt 80])])) /\
  exists sex age, getattr Demo.census "sex" = Ok sex /\
                  rows_where sex "Female" age = [VInt 50; VInt 38].
Proof.
  assert (O : nth_error (outputs (ten_trace ConditionalGeneration)) 4
              = Some (EPlot
                        (Kde "Female Age Distribution" "Age"
                           [("original", [VInt 50; VInt 38]);
                            ("synthetic",
                             [VInt 61; VInt 80; VInt 68; VInt 61;
                              VInt 80])])))
    by (vm_compute; reflexivity).
  split; [exact O|].
  destruct (female_age_curves Demo.python Demo.files
              (Demo.service Demo.ten_rows) 0%N Demo.census
              (Demo.ten_rows any_call) _ eq_refl eq_refl O)
    as (sex & age & sex' & age' & Hs & Ha & _ & _ & E).
  exists sex, age. split; [exact Hs|].
  now injection E.
Defined.

